(** * Ecobee thermostat platform: a shallow embedding

    Source: [homeassistant/components/climate/ecobee.py].

    The module wraps one thermostat of the ecobee network service in a
    [Thermostat] entity.  Its read properties are pure functions of the
    last snapshot fetched from the service; its command methods send one
    request to the service and raise the [update_without_throttle] flag;
    [update] consumes that flag.  [setup_platform] builds one entity per
    thermostat and registers two services that fan out over the entities.

    Python values are embedded as follows.
    - The thermostat document returned by the service is a record per
      JSON object, one field per key that the module reads.
    - Temperatures of the document are integers (tenths of a degree),
      embedded in [Z].  Python's true division [/] yields a float; floats
      are idealised as rationals [Q], and [int] truncates toward zero.
    - [None]-able values are [option]s.
    - Methods run in a state monad with exceptions: the state survives a
      raise, as object state does in Python.
    - The network service is an interface ([EcobeeService]); every call
      the module makes on it is recorded in a trace. *)

From Stdlib Require Import String Ascii List ZArith QArith Bool Lia.
From Stdlib Require Import DecimalString DecimalPos DecimalZ Permutation.
Import ListNotations.

Local Open Scope Z_scope.
Local Open Scope string_scope.

(** ** Python prelude *)

Module Py.

(** [a / b] on integers (true division). *)
Definition truediv (a b : Z) : Q := (inject_Z a / inject_Z b)%Q.

(** [int(x)] on a number: truncation toward zero. *)
Definition int (x : Q) : Z := Z.quot (Qnum x) (Zpos (Qden x)).

(** [str(n)] on an integer: decimal digits, with a minus sign. *)
Definition str_int (n : Z) : string := NilZero.string_of_int (Z.to_int n).

(** [str(b)] on a boolean. *)
Definition str_bool (b : bool) : string := if b then "True" else "False".

Definition lower_ascii (c : ascii) : ascii :=
    let n := nat_of_ascii c in
    if (65 <=? n)%nat && (n <=? 90)%nat then ascii_of_nat (n + 32) else c.

(** [s.lower()]. *)
Fixpoint lower (s : string) : string :=
    match s with
    | EmptyString => EmptyString
    | String c r => String (lower_ascii c) (lower r)
    end.

(** [x in xs] on a list of strings, for an [x] that may be [None]. *)
Definition contains (x : option string) (xs : list string) : bool :=
    match x with
    | Some s => existsb (String.eqb s) xs
    | None => false
    end.

(** [a == b] where either side may be [None]. *)
Definition eq_opt (a b : option string) : bool :=
    match a, b with
    | Some x, Some y => String.eqb x y
    | None, None => true
    | _, _ => false
    end.

(** [sub in s] on strings: [sub] occurs somewhere in [s]. *)
Fixpoint str_in (sub s : string) : bool :=
    match s with
    | EmptyString => String.prefix sub EmptyString
    | String _ rest => String.prefix sub s || str_in sub rest
    end.

(** [int(s)] on a string of decimal digits with an optional minus
    sign; [None] where Python raises [ValueError]. *)
Definition int_of_str (s : string) : option Z :=
    option_map Z.of_int (NilZero.int_of_string s).

End Py.

(** ** Constants *)

(** Modelled from the spec: the state constants that the module imports
    from [homeassistant.components.climate] and [homeassistant.const],
    which are not part of the source at hand.  The spec names the
    normalised operations [auto], [heat], [cool] and the idle
    classification [idle]. *)
Definition STATE_AUTO : string := "auto".
Definition STATE_HEAT : string := "heat".
Definition STATE_COOL : string := "cool".
Definition STATE_IDLE : string := "idle".

(** Modelled from the spec: the constants [STATE_ON] and [STATE_OFF] of
    [homeassistant.const], not part of the source at hand.  The spec
    gives the fan state as [on] or [off]. *)
Definition STATE_ON : string := "on".
Definition STATE_OFF : string := "off".

Definition ATTR_FAN_MIN_ON_TIME : string := "fan_min_on_time".
Definition ATTR_RESUME_ALL : string := "resume_all".
Definition DEFAULT_RESUME_ALL : bool := false.
Definition SERVICE_SET_FAN_MIN_ON_TIME : string := "ecobee_set_fan_min_on_time".
Definition SERVICE_RESUME_PROGRAM : string := "ecobee_resume_program".

(** ** The thermostat document *)

Record Runtime : Type := {
  actualTemperature : Z;
  desiredHeat : Z;
  desiredCool : Z;
  actualHumidity : Z;
  desiredFanMode : string
}.

Record Settings : Type := {
  hvacMode : string;
  holdAction : string;
  fanMinOnTime : Z
}.

Record Program : Type := {
  currentClimateRef : string
}.

Record Event : Type := {
  type : string;
  running : bool;
  holdClimateRef : string
}.

Record Snapshot : Type := {
  snap_name : string;
  runtime : Runtime;
  settings : Settings;
  program : Program;
  events : list Event;
  equipmentStatus : string
}.

(** ** The entity *)

(** [self.data] is the shared network service; it lives in the world,
    not in the entity.  [entity_id] is the attribute of the platform's
    entity base class, [None] until the platform assigns one. *)
Record Thermostat : Type := {
  thermostat_index : nat;
  thermostat : Snapshot;
  _name : string;
  hold_temp : bool;
  _operation_list : list string;
  update_without_throttle : bool;
  entity_id : option string
}.

(** The dictionary that [device_state_attributes] returns, one field
    per key. *)
Record StateAttributes : Type := {
  attr_actual_humidity : Z;
  attr_fan : string;
  attr_mode : string;
  attr_operation : string;
  attr_fan_min_on_time : Z
}.

(** ** Read model *)

Section ReadModel.

Variable self : Thermostat.

Definition name : string := snap_name (thermostat self).

Definition current_temperature : Q :=
    Py.truediv (actualTemperature (runtime (thermostat self))) 10.

Definition operation_mode : string := hvacMode (settings (thermostat self)).

Definition current_operation : string :=
    if (operation_mode =? "auxHeatOnly") || (operation_mode =? "heatPump")
    then STATE_HEAT
    else operation_mode.

Definition target_temperature_low : option Z :=
    if current_operation =? STATE_AUTO
    then Some (Py.int (Py.truediv (desiredHeat (runtime (thermostat self))) 10))
    else None.

Definition target_temperature_high : option Z :=
    if current_operation =? STATE_AUTO
    then Some (Py.int (Py.truediv (desiredCool (runtime (thermostat self))) 10))
    else None.

Definition target_temperature : option Z :=
    if current_operation =? STATE_AUTO then None
    else if current_operation =? STATE_HEAT
    then Some (Py.int (Py.truediv (desiredHeat (runtime (thermostat self))) 10))
    else if current_operation =? STATE_COOL
    then Some (Py.int (Py.truediv (desiredCool (runtime (thermostat self))) 10))
    else None.

Definition operation_list : list string := _operation_list self.

Definition mode : string := currentClimateRef (program (thermostat self)).

Definition fan_min_on_time : Z := fanMinOnTime (settings (thermostat self)).

Definition is_vacation_on : bool :=
    existsb (fun event => (type event =? "vacation") && running event)
            (events (thermostat self)).

Definition is_temp_hold_on : bool :=
    existsb (fun event => (type event =? "hold") && running event)
            (events (thermostat self)).

Definition is_away_mode_on : bool :=
    existsb (fun event => (holdClimateRef event =? "away")
                          || (type event =? "autoAway"))
            (events (thermostat self)).

Definition is_home_mode_on : bool :=
    existsb (fun event => (holdClimateRef event =? "home")
                          || (type event =? "autoHome"))
            (events (thermostat self)).

Definition current_hold_mode : option string :=
    if is_away_mode_on then Some "away"
    else if is_home_mode_on then Some "home"
    else if is_temp_hold_on then Some "temp"
    else None.

Definition hold_preference : string :=
    let default := holdAction (settings (thermostat self)) in
    if default =? "nextTransition" then default
    else if default =? "indefinite" then default
    else "nextTransition".

Definition desired_fan_mode : string :=
    desiredFanMode (runtime (thermostat self)).

Definition fan : string :=
    if Py.str_in "fan" (equipmentStatus (thermostat self))
    then STATE_ON
    else STATE_OFF.

Definition device_state_attributes : StateAttributes :=
    let status := equipmentStatus (thermostat self) in
    let operation :=
      if status =? "" then STATE_IDLE
      else if Py.str_in "Cool" status then STATE_COOL
      else if Py.str_in "auxHeat" status then STATE_HEAT
      else if Py.str_in "heatPump" status then STATE_HEAT
      else status in
    {| attr_actual_humidity := actualHumidity (runtime (thermostat self));
       attr_fan := fan;
       attr_mode := mode;
       attr_operation := operation;
       attr_fan_min_on_time := fan_min_on_time |}.

End ReadModel.


(** ** Exceptions and the method monad *)

Inductive Exn : Type :=
| UnboundLocalError (var : string)
| IndexError.

Inductive Outcome (A : Type) : Type :=
| Return (a : A)
| Raise (e : Exn).

Arguments Return {A} a.
Arguments Raise {A} e.

(** A method over a state [S]: it returns or raises, and in both cases
    leaves a state behind. *)
Definition M (S A : Type) : Type := S -> Outcome A * S.

Definition ret {S A : Type} (a : A) : M S A := fun s => (Return a, s).

Definition raise {S A : Type} (e : Exn) : M S A := fun s => (Raise e, s).

Definition bind {S A B : Type} (m : M S A) (k : A -> M S B) : M S B :=
  fun s =>
    match m s with
    | (Return a, s') => k a s'
    | (Raise e, s') => (Raise e, s')
    end.

Definition gets {S A : Type} (f : S -> A) : M S A := fun s => (Return (f s), s).

Definition modify {S : Type} (f : S -> S) : M S unit := fun s => (Return tt, f s).

Declare Scope method_scope.
Delimit Scope method_scope with method.

Notation "x <- c ;; k" := (bind c (fun x => k))
  (at level 61, c at next level, right associativity) : method_scope.
Notation "c ;; k" := (bind c (fun _ => k))
  (at level 61, right associativity) : method_scope.

Local Open Scope method_scope.

(** ** The network service *)

(** The requests of the vendor library that the module issues through
    [self.data.ecobee]. *)
Inductive Request : Type :=
| set_climate_hold (index : nat) (climate : string) (hold_type : string)
| set_hold_temp (index : nat) (cool_temp heat_temp : Z) (hold_type : string)
| set_hvac_mode (index : nat) (hvac_mode : string)
| ecobee_resume_program (index : nat) (resume_all : option string)
| ecobee_set_fan_min_on_time (index : nat) (minutes : string).

Inductive Level : Type := DEBUG | INFO | ERROR.

(** What the module does to its collaborators, in order. *)
Inductive Effect : Type :=
| DataUpdate (no_throttle : bool)
| GetThermostat (index : nat)
| Vendor (r : Request)
| Log (level : Level) (msg : string)
| AddDevices (indices : list nat)
| ScheduleUpdate (index : nat) (force_refresh : bool)
| RegisterService (service : string).

(** The vendor requests of a trace. *)
Definition vendor_calls (tr : list Effect) : list Request :=
  flat_map (fun e => match e with Vendor r => [r] | _ => [] end) tr.

(** The service behind [ecobee.NETWORK]: its cached thermostat list,
    [data.update(no_throttle=...)], and what a request does to it. *)
Class EcobeeService (N : Type) : Type := {
  thermostats : N -> list Snapshot;
  data_update : bool -> N -> N;
  request : Request -> N -> N
}.

Section Entity.

Context {N : Type} {service : EcobeeService N}.

Record World : Type := {
  network : N;
  trace : list Effect
}.

(** An entity at work: [self] and the world it shares with the others. *)
Record Obj : Type := {
  this : Thermostat;
  world : World
}.

Definition emit (e : Effect) (w : World) : World :=
  {| network := network w; trace := trace w ++ [e] |}.

Definition on_world (f : World -> World) : M Obj unit :=
  modify (fun o => {| this := this o; world := f (world o) |}).

Definition on_self (f : Thermostat -> Thermostat) : M Obj unit :=
  modify (fun o => {| this := f (this o); world := world o |}).

(** [self.data.update(no_throttle=b)]; [self.data.update()] is [b = false]. *)
Definition call_data_update (b : bool) : World -> World :=
  fun w => emit (DataUpdate b)
             {| network := data_update b (network w); trace := trace w |}.

(** A request [self.data.ecobee.<r>(...)]. *)
Definition call_request (r : Request) : World -> World :=
  fun w => emit (Vendor r)
             {| network := request r (network w); trace := trace w |}.

(** [data.ecobee.get_thermostat(index)]: the vendor library indexes its
    thermostat list. *)
Definition get_thermostat (index : nat) : M World Snapshot :=
  fun w =>
    match nth_error (thermostats (network w)) index with
    | Some t => (Return t, emit (GetThermostat index) w)
    | None => (Raise IndexError, emit (GetThermostat index) w)
    end.

Definition logger (level : Level) (msg : string) : M Obj unit :=
  on_world (emit (Log level msg)).

(** Run a method of the world from inside an entity. *)
Definition in_world {A : Type} (m : M World A) : M Obj A :=
  fun o =>
    let (r, w) := m (world o) in
    (r, {| this := this o; world := w |}).

Definition set_update_without_throttle (b : bool) (t : Thermostat) : Thermostat :=
  {| thermostat_index := thermostat_index t;
     thermostat := thermostat t;
     _name := _name t;
     hold_temp := hold_temp t;
     _operation_list := _operation_list t;
     update_without_throttle := b;
     entity_id := entity_id t |}.

Definition set_thermostat (s : Snapshot) (t : Thermostat) : Thermostat :=
  {| thermostat_index := thermostat_index t;
     thermostat := s;
     _name := _name t;
     hold_temp := hold_temp t;
     _operation_list := _operation_list t;
     update_without_throttle := update_without_throttle t;
     entity_id := entity_id t |}.

Definition set_entity_id (i : option string) (t : Thermostat) : Thermostat :=
  {| thermostat_index := thermostat_index t;
     thermostat := thermostat t;
     _name := _name t;
     hold_temp := hold_temp t;
     _operation_list := _operation_list t;
     update_without_throttle := update_without_throttle t;
     entity_id := i |}.

(** Reading a local variable that no branch has bound. *)
Definition local {A : Type} (var : string) (v : option A) : M Obj A :=
  match v with
  | Some a => ret a
  | None => raise (UnboundLocalError var)
  end.

(** *** [Thermostat.__init__] *)

Definition Thermostat_init (thermostat_index : nat) (hold_temp : bool)
  : M World Thermostat :=
  t <- get_thermostat thermostat_index ;;
  ret {| thermostat_index := thermostat_index;
         thermostat := t;
         _name := snap_name t;
         hold_temp := hold_temp;
         _operation_list := ["auto"; "auxHeatOnly"; "cool"; "heat"; "off"];
         update_without_throttle := false;
         entity_id := None |}.

(** *** [Thermostat.update] *)

Definition update : M Obj unit :=
  self <- gets this ;;
  (if update_without_throttle self
   then on_world (call_data_update true) ;;
        on_self (set_update_without_throttle false)
   else on_world (call_data_update false)) ;;
  self <- gets this ;;
  t <- in_world (get_thermostat (thermostat_index self)) ;;
  on_self (set_thermostat t).

(** *** Commands *)

Definition turn_away_mode_on : M Obj unit :=
  self <- gets this ;;
  on_world (call_request
    (set_climate_hold (thermostat_index self) "away" (hold_preference self))) ;;
  on_self (set_update_without_throttle true).

Definition turn_home_mode_on : M Obj unit :=
  self <- gets this ;;
  on_world (call_request
    (set_climate_hold (thermostat_index self) "home" (hold_preference self))) ;;
  on_self (set_update_without_throttle true).

Definition set_auto_temp_hold (heat_temp cool_temp : Z) : M Obj unit :=
  self <- gets this ;;
  on_world (call_request
    (set_hold_temp (thermostat_index self) cool_temp heat_temp
                   (hold_preference self))) ;;
  logger DEBUG "Setting ecobee hold_temp to: heat=%s, is=%s, cool=%s, is=%s" ;;
  on_self (set_update_without_throttle true).

(** The two branches bind [heat_temp] and [cool_temp]; with neither
    taken both stay unbound, and the first read of one, while the
    arguments of the request are evaluated left to right, raises. *)
Definition set_temp_hold (temp : Z) : M Obj unit :=
  self <- gets this ;;
  let '(heat_temp, cool_temp) :=
    if current_operation self =? STATE_HEAT
    then (Some temp, Some (temp + 20))
    else if current_operation self =? STATE_COOL
    then (Some (temp - 20), Some temp)
    else (None, None) in
  cool <- local "cool_temp" cool_temp ;;
  heat <- local "heat_temp" heat_temp ;;
  on_world (call_request
    (set_hold_temp (thermostat_index self) cool heat (hold_preference self))) ;;
  logger DEBUG "Setting ecobee hold_temp to: low=%s, is=%s, cool=%s, is=%s" ;;
  on_self (set_update_without_throttle true).

Definition set_hold_mode (hold_mode : option string) : M Obj unit :=
  self <- gets this ;;
  let hold := current_hold_mode self in
  if Py.eq_opt hold hold_mode then ret tt
  else if Py.eq_opt hold_mode (Some "away") then turn_away_mode_on
  else if Py.eq_opt hold_mode (Some "home") then turn_home_mode_on
  else if Py.eq_opt hold_mode (Some "temp")
  then set_temp_hold (Py.int (current_temperature self))
  else on_world (call_request
         (ecobee_resume_program (thermostat_index self) None)) ;;
       on_self (set_update_without_throttle true).

Definition turn_away_mode_off : M Obj unit := set_hold_mode None.

(** The keyword arguments that [set_temperature] looks up. *)
Record Kwargs : Type := {
  target_temp_low : option Q;
  target_temp_high : option Q;
  temperature : option Q
}.

Definition set_temperature (kwargs : Kwargs) : M Obj unit :=
  let low_temp := target_temp_low kwargs in
  let high_temp := target_temp_high kwargs in
  let temp := temperature kwargs in
  self <- gets this ;;
  match current_operation self =? STATE_AUTO, low_temp, high_temp with
  | true, Some low, Some high => set_auto_temp_hold (Py.int low) (Py.int high)
  | _, _, _ =>
      match temp with
      | Some t => set_temp_hold (Py.int t)
      | None => logger ERROR "Missing valid arguments for set_temperature in %s"
      end
  end.

Definition set_operation_mode (operation_mode : string) : M Obj unit :=
  self <- gets this ;;
  on_world (call_request (set_hvac_mode (thermostat_index self) operation_mode)) ;;
  on_self (set_update_without_throttle true).

Definition set_fan_min_on_time (fan_min_on_time : string) : M Obj unit :=
  self <- gets this ;;
  on_world (call_request
    (ecobee_set_fan_min_on_time (thermostat_index self) fan_min_on_time)) ;;
  on_self (set_update_without_throttle true).

Definition resume_program (resume_all : bool) : M Obj unit :=
  self <- gets this ;;
  on_world (call_request
    (ecobee_resume_program (thermostat_index self)
                           (Some (Py.lower (Py.str_bool resume_all))))) ;;
  on_self (set_update_without_throttle true).

(** The command methods, as one type, so that a property can range
    over all of them. *)
Inductive Command : Type :=
| SetHoldMode (hold_mode : option string)
| SetAutoTempHold (heat_temp cool_temp : Z)
| SetTempHold (temp : Z)
| SetTemperature (kwargs : Kwargs)
| SetOperationMode (operation_mode : string)
| SetFanMinOnTime (fan_min_on_time : string)
| ResumeProgram (resume_all : bool)
| TurnAwayModeOn
| TurnHomeModeOn.

Definition run (c : Command) : M Obj unit :=
  match c with
  | SetHoldMode hold_mode => set_hold_mode hold_mode
  | SetAutoTempHold heat_temp cool_temp => set_auto_temp_hold heat_temp cool_temp
  | SetTempHold temp => set_temp_hold temp
  | SetTemperature kwargs => set_temperature kwargs
  | SetOperationMode operation_mode => set_operation_mode operation_mode
  | SetFanMinOnTime fan_min_on_time => set_fan_min_on_time fan_min_on_time
  | ResumeProgram resume_all => resume_program resume_all
  | TurnAwayModeOn => turn_away_mode_on
  | TurnHomeModeOn => turn_home_mode_on
  end.

End Entity.

Arguments World N : clear implicits.
Arguments Obj N : clear implicits.

(** ** The platform *)

(** [discovery_info], a dictionary with the key [hold_temp]. *)
Record DiscoveryInfo : Type := {
  discovery_hold_temp : bool
}.

(** [service.data] of the two services, after schema validation. *)
Record SetFanMinOnTimeData : Type := {
  fan_entity_id : option (list string);
  fan_minutes : Z
}.

Record ResumeProgramData : Type := {
  resume_entity_id : option (list string);
  resume_all_flag : bool
}.

(** [for x in xs: body(x)], collecting what the body returns. *)
Fixpoint for_each {S A B : Type} (body : A -> M S B) (xs : list A)
  : M S (list B) :=
  match xs with
  | [] => ret []
  | x :: rest =>
      y <- body x ;;
      ys <- for_each body rest ;;
      ret (y :: ys)
  end.

Fixpoint replace_nth {A : Type} (k : nat) (a : A) (l : list A) : list A :=
  match l, k with
  | [], _ => []
  | _ :: r, O => a :: r
  | x :: r, S k' => x :: replace_nth k' a r
  end.

Definition enumerate {A : Type} (l : list A) : list (nat * A) :=
  combine (seq 0 (length l)) l.

Section Platform.

Context {N : Type} {service : EcobeeService N}.

(** The entity id that the platform's registry gives to the [k]-th
    entity handed to [add_devices]. *)
Variable assign_entity_id : nat -> Thermostat -> option string.

(** The platform after [setup_platform]: the world, and the list
    [devices] that the registry and both service closures share.
    Entities are objects; a position in [devices] stands for one. *)
Record Hass : Type := {
  hass_world : World N;
  devices : list Thermostat
}.

Definition in_hass_world {A : Type} (m : M (World N) A) : M Hass A :=
  fun h =>
    let (r, w) := m (hass_world h) in
    (r, {| hass_world := w; devices := devices h |}).

(** Run a method on the entity at position [k] of [devices].  The
    positions used are those of [devices] itself, so the last branch is
    never taken. *)
Definition on_device {A : Type} (k : nat) (m : M (Obj N) A) : M Hass A :=
  fun h =>
    match nth_error (devices h) k with
    | Some device =>
        let (r, o) := m {| this := device; world := hass_world h |} in
        (r, {| hass_world := world o;
               devices := replace_nth k (this o) (devices h) |})
    | None => (Raise IndexError, h)
    end.

(** [add_devices(devices)]: the registry takes the entities and names
    them. *)
Definition add_devices (new_devices : list Thermostat) : M Hass unit :=
  modify (fun h =>
    {| hass_world := emit (AddDevices (map thermostat_index new_devices))
                          (hass_world h);
       devices := map (fun '(k, device) =>
                         set_entity_id (assign_entity_id k device) device)
                      (enumerate new_devices) |}).

Definition register (service_name : string) : M Hass unit :=
  in_hass_world (modify (emit (RegisterService service_name))).

(** [entity.schedule_update_ha_state(force_refresh)]. *)
Definition schedule_update_ha_state (force_refresh : bool) : M (Obj N) unit :=
  self <- gets this ;;
  on_world (emit (ScheduleUpdate (thermostat_index self) force_refresh)).

(** The positions of the entities a service call is aimed at.  The
    test [if entity_id:] holds for a list with an element; it fails for
    [None] and for the empty list alike. *)
Definition target_thermostats (entity_id_data : option (list string))
  (devices : list Thermostat) : list nat :=
  map fst
    (match entity_id_data with
     | Some (first :: others) =>
         filter (fun '(_, device) =>
                   Py.contains (entity_id device) (first :: others))
                (enumerate devices)
     | _ => enumerate devices
     end).

Definition fan_min_on_time_set_service (data : SetFanMinOnTimeData)
  : M Hass unit :=
  let entity_id := fan_entity_id data in
  let fan_min_on_time := fan_minutes data in
  targets <- gets (fun h => target_thermostats entity_id (devices h)) ;;
  for_each (fun k =>
      on_device k (set_fan_min_on_time (Py.str_int fan_min_on_time) ;;
                   schedule_update_ha_state true))
    targets ;;
  ret tt.

Definition resume_program_set_service (data : ResumeProgramData)
  : M Hass unit :=
  let entity_id := resume_entity_id data in
  let resume_all := resume_all_flag data in
  targets <- gets (fun h => target_thermostats entity_id (devices h)) ;;
  for_each (fun k =>
      on_device k (resume_program resume_all ;;
                   schedule_update_ha_state true))
    targets ;;
  ret tt.

(** Reading the service descriptions from [services.yaml] is left out:
    they are handed to the registration unread. *)
Definition setup_platform (discovery_info : option DiscoveryInfo)
  : M Hass unit :=
  match discovery_info with
  | None => ret tt
  | Some info =>
      let hold_temp := discovery_hold_temp info in
      in_hass_world (modify (emit (Log INFO
        "Loading ecobee thermostat component with hold_temp set to %s"))) ;;
      count <- gets (fun h => length (thermostats (network (hass_world h)))) ;;
      new_devices <- in_hass_world
        (for_each (fun index => Thermostat_init index hold_temp)
                  (seq 0 count)) ;;
      add_devices new_devices ;;
      register SERVICE_SET_FAN_MIN_ON_TIME ;;
      register SERVICE_RESUME_PROGRAM
  end.

End Platform.

Arguments Hass N : clear implicits.

(** ** Vocabulary of the properties *)

Section Vocabulary.

Context {N : Type} {service : EcobeeService N}.

(** What a command that always sends one request [q] does. *)
Definition sends (q : Request) (o : Obj N) : Outcome unit * Obj N :=
  (Return tt,
   {| this := set_update_without_throttle true (this o);
      world := call_request q (world o) |}).

(** The same, with a debug line logged after the request. *)
Definition sends_and_logs (q : Request) (msg : string) (o : Obj N)
  : Outcome unit * Obj N :=
  (Return tt,
   {| this := set_update_without_throttle true (this o);
      world := emit (Log DEBUG msg) (call_request q (world o)) |}).

(** The two calls that a command answers without sending a request:
    a hold mode that is already the current one, and a temperature
    call that names neither a target nor, in [auto], a low and a high. *)
Definition declines (c : Command) (self : Thermostat) : Prop :=
  match c with
  | SetHoldMode hold_mode => hold_mode = current_hold_mode self
  | SetTemperature kwargs =>
      temperature kwargs = None /\
      ~ (current_operation self = "auto" /\
         target_temp_low kwargs <> None /\
         target_temp_high kwargs <> None)
  | _ => False
  end.

(** A command that has sent its one request has raised the flag. *)
Definition sent_one (o : Obj N) (r : Outcome unit * Obj N) : Prop :=
  (exists q : Request,
     vendor_calls (trace (world (snd r))) =
     (vendor_calls (trace (world o)) ++ [q])%list) /\
  update_without_throttle (this (snd r)) = true.

(** Carrying out an effect on the world: a request and a refresh reach
    the service, everything is recorded. *)
Definition perform (e : Effect) (w : World N) : World N :=
  match e with
  | Vendor q => call_request q w
  | DataUpdate b => call_data_update b w
  | _ => emit e w
  end.

Definition perform_all (evs : list Effect) (w : World N) : World N :=
  fold_left (fun w e => perform e w) evs w.

End Vocabulary.

(** The entity that [Thermostat.__init__] builds for an index from the
    snapshot found there. *)
Definition fresh_thermostat (index : nat) (hold : bool) (s : Snapshot)
  : Thermostat :=
  {| thermostat_index := index;
     thermostat := s;
     _name := snap_name s;
     hold_temp := hold;
     _operation_list := ["auto"; "auxHeatOnly"; "cool"; "heat"; "off"];
     update_without_throttle := false;
     entity_id := None |}.

(** Whether the entity at position [k] of [devs] has its entity id in
    [ids]. *)
Definition selected (ids : list string) (devs : list Thermostat) (k : nat)
  : bool :=
  match nth_error devs k with
  | Some device => Py.contains (entity_id device) ids
  | None => false
  end.

(** What a service call leaves in the trace: for each target position,
    in order, the request [q] of the entity there and the scheduling of
    its forced state update. *)
Definition fan_out (q : Thermostat -> Request) (devs : list Thermostat)
  (targets : list nat) : list Effect :=
  flat_map (fun k =>
              match nth_error devs k with
              | Some device =>
                  [Vendor (q device);
                   ScheduleUpdate (thermostat_index device) true]
              | None => []
              end)
           targets.

(** The entity at a position after a service call: flagged when the
    position was a target. *)
Definition flagged (targets : list nat) (k : nat) (device : Thermostat)
  : Thermostat :=
  if existsb (Nat.eqb k) targets
  then set_update_without_throttle true device
  else device.

(** Two entities that hold the same snapshot for the same index. *)
Definition same_view (a b : Thermostat) : Prop :=
  thermostat a = thermostat b /\ thermostat_index a = thermostat_index b.

(** Two entities that differ at most in [update_without_throttle]. *)
Definition same_but_flag (a b : Thermostat) : Prop :=
  thermostat a = thermostat b /\
  thermostat_index a = thermostat_index b /\
  _name a = _name b /\
  hold_temp a = hold_temp b /\
  _operation_list a = _operation_list b /\
  entity_id a = entity_id b.

(** The effects a command may have: requests and log lines. *)
Definition command_effect (e : Effect) : Prop :=
  match e with
  | Vendor _ | Log _ _ => True
  | _ => False
  end.

(** The thermostat a request addresses. *)
Definition request_index (q : Request) : nat :=
  match q with
  | set_climate_hold index _ _ => index
  | set_hold_temp index _ _ _ => index
  | set_hvac_mode index _ => index
  | ecobee_resume_program index _ => index
  | ecobee_set_fan_min_on_time index _ => index
  end.

(** The hold preference a request carries, if it sets a hold. *)
Definition request_hold_type (q : Request) : option string :=
  match q with
  | set_climate_hold _ _ hold_type => Some hold_type
  | set_hold_temp _ _ _ hold_type => Some hold_type
  | _ => None
  end.

(** A request as a command of the entity [self] may send it. *)
Definition well_addressed (self : Thermostat) (q : Request) : Prop :=
  request_index q = thermostat_index self /\
  (request_hold_type q = None \/
   request_hold_type q = Some "nextTransition" \/
   request_hold_type q = Some "indefinite").

Section Footprints.

Context {N : Type} {service : EcobeeService N}.

(** What a method [m] does on every entity that holds the snapshot and
    the index of [self]: one outcome [out], one list of effects [evs]
    carried out on the world, and the flag raised or left ([f]).  The
    effects are requests and log lines, at most one request, addressed
    to the thermostat of [self]; the flag is raised exactly when a
    request is sent, and nothing is done before a raise. *)
Definition footprint (m : M (Obj N) unit) (self : Thermostat) : Prop :=
  exists (out : Outcome unit) (evs : list Effect) (f : bool),
    (forall o : Obj N,
       same_view self (this o) ->
       m o = (out,
              {| this := if f then set_update_without_throttle true (this o)
                         else this o;
                 world := perform_all evs (world o) |})) /\
    Forall command_effect evs /\
    (length (vendor_calls evs) <= 1)%nat /\
    Forall (well_addressed self) (vendor_calls evs) /\
    (f = true <-> vendor_calls evs <> []) /\
    (out <> Return tt -> evs = []).

End Footprints.

(** ** Sample data *)

Definition sample_runtime : Runtime :=
  {| actualTemperature := 723; desiredHeat := 725; desiredCool := 789;
     actualHumidity := 40; desiredFanMode := "auto" |}.

Definition sample_snapshot (hvac_mode hold_action : string)
  (evs : list Event) : Snapshot :=
  {| snap_name := "Hall";
     runtime := sample_runtime;
     settings := {| hvacMode := hvac_mode; holdAction := hold_action;
                    fanMinOnTime := 5 |};
     program := {| currentClimateRef := "home" |};
     events := evs;
     equipmentStatus := "" |}.

Definition sample_thermostat (hvac_mode hold_action : string)
  (evs : list Event) : Thermostat :=
  {| thermostat_index := 0;
     thermostat := sample_snapshot hvac_mode hold_action evs;
     _name := "Hall";
     hold_temp := false;
     _operation_list := ["auto"; "auxHeatOnly"; "cool"; "heat"; "off"];
     update_without_throttle := false;
     entity_id := Some "climate.hall" |}.

(** The two events of the precedence example; the climate references
    are the empty strings the vendor sends with such events. *)
Definition auto_away_and_hold : list Event :=
  [ {| type := "autoAway"; running := true; holdClimateRef := "" |};
    {| type := "hold"; running := true; holdClimateRef := "" |} ].

(** A hold on the [home] climate: home mode and a temperature hold at
    once. *)
Definition home_hold : list Event :=
  [ {| type := "hold"; running := true; holdClimateRef := "home" |} ].

(** A hold on explicit setpoints. *)
Definition setpoint_hold : list Event :=
  [ {| type := "hold"; running := true; holdClimateRef := "" |} ].

(** A service that keeps its thermostat list in memory and never
    changes it. *)
#[local] Instance cached_service : EcobeeService (list Snapshot) :=
  {| thermostats := fun n => n;
     data_update := fun _ n => n;
     request := fun _ n => n |}.

Definition sample_world (hvac_mode : string) : World (list Snapshot) :=
  {| network := [sample_snapshot hvac_mode "askMe" []]; trace := [] |}.

Definition sample_obj (hvac_mode : string) : Obj (list Snapshot) :=
  {| this := sample_thermostat hvac_mode "askMe" [];
     world := sample_world hvac_mode |}.

Definition sample_hass (ids : list (option string))
  : Hass (list Snapshot) :=
  {| hass_world := {| network := map (fun _ => sample_snapshot "heat" "askMe" [])
                                     ids;
                      trace := [] |};
     devices := map (fun '(k, i) =>
                       set_entity_id i
                         (fresh_thermostat k false
                            (sample_snapshot "heat" "askMe" [])))
                    (enumerate ids) |}.

(** A registry that names the [k]-th entity [climate.hall] when [k] is
    0 and [climate.attic] otherwise. *)
Definition sample_entity_id (k : nat) (_ : Thermostat) : option string :=
  Some (match k with O => "climate.hall" | _ => "climate.attic" end).

Definition sample_pair : Hass (list Snapshot) :=
  sample_hass [Some "climate.hall"; Some "climate.attic"].

Definition sample_single : Hass (list Snapshot) :=
  sample_hass [Some "climate.hall"].

Definition no_arguments : Kwargs :=
  {| target_temp_low := None; target_temp_high := None; temperature := None |}.

Definition low_and_high : Kwargs :=
  {| target_temp_low := Some (601 # 10)%Q; target_temp_high := Some (80 # 1)%Q;
     temperature := None |}.

Definition only_target : Kwargs :=
  {| target_temp_low := None; target_temp_high := None;
     temperature := Some (705 # 10)%Q |}.

(** An auto-away event that has stopped running, before a running
    setpoint hold. *)
Definition stale_auto_away : list Event :=
  [ {| type := "autoAway"; running := false; holdClimateRef := "" |};
    {| type := "hold"; running := true; holdClimateRef := "" |} ].

(** A thermostat in [heat] with the given equipment status. *)
Definition sample_equipment (status : string) : Thermostat :=
  {| thermostat_index := 0;
     thermostat :=
       {| snap_name := "Hall";
          runtime := sample_runtime;
          settings := {| hvacMode := "heat"; holdAction := "askMe";
                         fanMinOnTime := 5 |};
          program := {| currentClimateRef := "home" |};
          events := [];
          equipmentStatus := status |};
     _name := "Hall";
     hold_temp := false;
     _operation_list := ["auto"; "auxHeatOnly"; "cool"; "heat"; "off"];
     update_without_throttle := false;
     entity_id := Some "climate.hall" |}.

(** An entity with the flag raised, and one whose service has lost
    its thermostats. *)
Definition sample_flagged : Obj (list Snapshot) :=
  {| this := set_update_without_throttle true
               (sample_thermostat "heat" "askMe" home_hold);
     world := sample_world "heat" |}.


(** * Properties *)

(** ** Read model *)

Lemma int_truediv_10 (x : Z) : Py.int (Py.truediv x 10) = Z.quot x 10.
Proof.
  unfold Py.int, Py.truediv. simpl. now rewrite Z.mul_1_r.
Qed.

Lemma string_eqb_true (a b : string) : (a =? b) = true <-> a = b.
Proof. apply String.eqb_eq. Qed.

Lemma string_eqb_false (a b : string) : (a =? b) = false <-> a <> b.
Proof. apply String.eqb_neq. Qed.

(** C8: [current_operation] sends the raw modes [auxHeatOnly] and
    [heatPump] to [heat] and returns every other raw mode as it is. *)
Theorem current_operation_normalises (self : Thermostat) :
  (operation_mode self = "auxHeatOnly" \/ operation_mode self = "heatPump" ->
   current_operation self = "heat") /\
  (operation_mode self <> "auxHeatOnly" ->
   operation_mode self <> "heatPump" ->
   current_operation self = operation_mode self).
Proof.
  unfold current_operation. split.
  - intros [H | H]; rewrite H; reflexivity.
  - intros Ha Hp.
    apply string_eqb_false in Ha. apply string_eqb_false in Hp.
    now rewrite Ha, Hp.
Qed.

Lemma current_operation_normalises_witness :
  current_operation (sample_thermostat "heatPump" "askMe" []) = "heat" /\
  current_operation (sample_thermostat "off" "askMe" []) = "off".
Proof.
  split.
  - apply (proj1 (current_operation_normalises
                    (sample_thermostat "heatPump" "askMe" []))).
    right. reflexivity.
  - apply (proj2 (current_operation_normalises
                    (sample_thermostat "off" "askMe" []))).
    + simpl. discriminate.
    + simpl. discriminate.
Defined.

(** C9: [hold_preference] returns the configured [holdAction] when it
    is [nextTransition] or [indefinite], and [nextTransition] for any
    other configured value. *)
Theorem hold_preference_resolves (self : Thermostat) :
  let default := holdAction (settings (thermostat self)) in
  (default = "nextTransition" \/ default = "indefinite" ->
   hold_preference self = default) /\
  (default <> "nextTransition" -> default <> "indefinite" ->
   hold_preference self = "nextTransition").
Proof.
  unfold hold_preference. cbv zeta. split.
  - intros [H | H]; rewrite H; reflexivity.
  - intros Hn Hi.
    apply string_eqb_false in Hn. apply string_eqb_false in Hi.
    now rewrite Hn, Hi.
Qed.

Lemma hold_preference_resolves_witness :
  hold_preference (sample_thermostat "heat" "indefinite" []) = "indefinite" /\
  hold_preference (sample_thermostat "heat" "askMe" []) = "nextTransition".
Proof.
  split.
  - apply (proj1 (hold_preference_resolves
                    (sample_thermostat "heat" "indefinite" []))).
    right. reflexivity.
  - apply (proj2 (hold_preference_resolves
                    (sample_thermostat "heat" "askMe" []))).
    + simpl. discriminate.
    + simpl. discriminate.
Defined.

(** C2: [current_hold_mode] is [away] when away mode is on, else [home]
    when home mode is on, else [temp] when a temperature hold is on,
    else [None]; a snapshot whose events are a running [autoAway] and a
    running [hold], whatever their climate references, gives [away]
    and not [temp]. *)
Theorem current_hold_mode_precedence (self : Thermostat) :
  (is_away_mode_on self = true -> current_hold_mode self = Some "away") /\
  (is_away_mode_on self = false -> is_home_mode_on self = true ->
   current_hold_mode self = Some "home") /\
  (is_away_mode_on self = false -> is_home_mode_on self = false ->
   is_temp_hold_on self = true -> current_hold_mode self = Some "temp") /\
  (is_away_mode_on self = false -> is_home_mode_on self = false ->
   is_temp_hold_on self = false -> current_hold_mode self = None) /\
  (forall ref1 ref2 : string,
     events (thermostat self) =
       [ {| type := "autoAway"; running := true; holdClimateRef := ref1 |};
         {| type := "hold"; running := true; holdClimateRef := ref2 |} ] ->
     is_temp_hold_on self = true /\
     current_hold_mode self = Some "away" /\
     current_hold_mode self <> Some "temp").
Proof.
  unfold current_hold_mode. repeat split.
  - intros ->. reflexivity.
  - intros -> ->. reflexivity.
  - intros -> -> ->. reflexivity.
  - intros -> -> ->. reflexivity.
  - unfold is_temp_hold_on. rewrite H. reflexivity.
  - unfold is_away_mode_on. rewrite H. simpl.
    now rewrite orb_true_r.
  - unfold is_away_mode_on. rewrite H. simpl.
    rewrite orb_true_r. simpl. discriminate.
Qed.

Lemma current_hold_mode_precedence_witness :
  current_hold_mode (sample_thermostat "heat" "askMe" auto_away_and_hold)
    = Some "away" /\
  current_hold_mode (sample_thermostat "heat" "askMe" home_hold)
    = Some "home" /\
  current_hold_mode (sample_thermostat "heat" "askMe" setpoint_hold)
    = Some "temp" /\
  current_hold_mode (sample_thermostat "heat" "askMe" []) = None.
Proof.
  refine (conj _ (conj _ (conj _ _))).
  - apply (proj2 (proj2 (proj2 (proj2 (current_hold_mode_precedence
             (sample_thermostat "heat" "askMe" auto_away_and_hold)))))
             "" "" eq_refl).
  - apply (proj1 (proj2 (current_hold_mode_precedence
             (sample_thermostat "heat" "askMe" home_hold)))).
    + reflexivity.
    + reflexivity.
  - apply (proj1 (proj2 (proj2 (current_hold_mode_precedence
             (sample_thermostat "heat" "askMe" setpoint_hold))))).
    + reflexivity.
    + reflexivity.
    + reflexivity.
  - apply (proj1 (proj2 (proj2 (proj2 (current_hold_mode_precedence
             (sample_thermostat "heat" "askMe" []))))));
      reflexivity.
Defined.

(** With the operation [off] there is no target temperature although
    the operation is not [auto]; and with the operation [heat] and a
    desired heat of 72.5 degrees the target is 72, not 72.5. *)
Lemma target_temperature_absent_when_off :
  ~ (target_temperature (sample_thermostat "off" "askMe" []) = None <->
     current_operation (sample_thermostat "off" "askMe" []) = STATE_AUTO) /\
  target_temperature (sample_thermostat "heat" "askMe" []) = Some 72 /\
  ~ (inject_Z 72 == Py.truediv 725 10)%Q.
Proof.
  split; [| split].
  - intros [H _]. specialize (H eq_refl). discriminate H.
  - reflexivity.
  - unfold Qeq. simpl. discriminate.
Qed.

(** C4, amended: [target_temperature] is the integer-truncated
    [desiredHeat/10] when the operation is [heat], the integer-truncated
    [desiredCool/10] when it is [cool], and absent for every other
    operation, [auto] among them; [target_temperature_low] and
    [target_temperature_high] are present exactly when the operation is
    [auto], as the integer-truncated [desiredHeat/10] and
    [desiredCool/10]. *)
Theorem target_temperature_by_operation (self : Thermostat) :
  let heat := desiredHeat (runtime (thermostat self)) in
  let cool := desiredCool (runtime (thermostat self)) in
  (current_operation self = "heat" ->
   target_temperature self = Some (Py.int (Py.truediv heat 10)) /\
   target_temperature self = Some (Z.quot heat 10)) /\
  (current_operation self = "cool" ->
   target_temperature self = Some (Py.int (Py.truediv cool 10)) /\
   target_temperature self = Some (Z.quot cool 10)) /\
  (target_temperature self = None <->
   current_operation self <> "heat" /\ current_operation self <> "cool") /\
  (current_operation self = "auto" -> target_temperature self = None) /\
  (current_operation self = "auto" ->
   target_temperature_low self = Some (Z.quot heat 10) /\
   target_temperature_high self = Some (Z.quot cool 10)) /\
  (target_temperature_low self <> None <-> current_operation self = "auto") /\
  (target_temperature_high self <> None <-> current_operation self = "auto").
Proof.
  cbv zeta.
  unfold target_temperature, target_temperature_low, target_temperature_high,
    STATE_AUTO, STATE_HEAT, STATE_COOL.
  rewrite !int_truediv_10.
  repeat split.
  - rewrite H. reflexivity.
  - rewrite H. reflexivity.
  - rewrite H. reflexivity.
  - rewrite H. reflexivity.
  - intros E. rewrite E in H.
    destruct (current_operation self =? "auto"); discriminate H.
  - intros E. rewrite E in H. discriminate H.
  - intros [Hh Hc].
    apply string_eqb_false in Hh. apply string_eqb_false in Hc.
    rewrite Hh, Hc. now destruct (current_operation self =? "auto").
  - intros ->. reflexivity.
  - rewrite H. reflexivity.
  - rewrite H. reflexivity.
  - intros H. destruct (current_operation self =? "auto") eqn:E.
    + now apply string_eqb_true.
    + now contradiction H.
  - intros ->. discriminate.
  - intros H. destruct (current_operation self =? "auto") eqn:E.
    + now apply string_eqb_true.
    + now contradiction H.
  - intros ->. discriminate.
Qed.

Lemma target_temperature_by_operation_witness :
  target_temperature (sample_thermostat "heat" "askMe" []) = Some 72 /\
  target_temperature (sample_thermostat "cool" "askMe" []) = Some 78 /\
  target_temperature (sample_thermostat "auto" "askMe" []) = None /\
  target_temperature_low (sample_thermostat "auto" "askMe" []) = Some 72 /\
  target_temperature_high (sample_thermostat "auto" "askMe" []) = Some 78.
Proof.
  pose proof (target_temperature_by_operation
                (sample_thermostat "heat" "askMe" [])) as Hh.
  pose proof (target_temperature_by_operation
                (sample_thermostat "cool" "askMe" [])) as Hc.
  pose proof (target_temperature_by_operation
                (sample_thermostat "auto" "askMe" [])) as Ha.
  cbv zeta in Hh, Hc, Ha.
  refine (conj _ (conj _ (conj _ (conj _ _)))).
  - apply (proj1 Hh). reflexivity.
  - apply (proj1 (proj2 Hc)). reflexivity.
  - apply (proj1 (proj2 (proj2 (proj2 Ha)))). reflexivity.
  - apply (proj1 (proj2 (proj2 (proj2 (proj2 Ha))))). reflexivity.
  - apply (proj1 (proj2 (proj2 (proj2 (proj2 Ha))))). reflexivity.
Defined.

(** ** Commands *)

Local Open Scope list_scope.

Section Commands.

Context {N : Type} {service : EcobeeService N}.

Lemma vendor_calls_app (a b : list Effect) :
  vendor_calls (a ++ b) = vendor_calls a ++ vendor_calls b.
Proof. unfold vendor_calls. apply flat_map_app. Qed.

Lemma eq_opt_refl (a : option string) : Py.eq_opt a a = true.
Proof. destruct a; simpl; [apply String.eqb_refl | reflexivity]. Qed.

Lemma eq_opt_true (a b : option string) : Py.eq_opt a b = true <-> a = b.
Proof.
  destruct a, b; simpl; split; intros H; try discriminate; try reflexivity.
  - apply string_eqb_true in H. now subst.
  - injection H as ->. apply String.eqb_refl.
Qed.

Ltac run_method :=
  cbv [bind gets modify ret raise on_world on_self logger local
       sends sends_and_logs]; simpl.

Lemma turn_away_mode_on_sends (o : Obj N) :
  turn_away_mode_on o =
  sends (set_climate_hold (thermostat_index (this o)) "away"
                          (hold_preference (this o))) o.
Proof. reflexivity. Qed.

Lemma turn_home_mode_on_sends (o : Obj N) :
  turn_home_mode_on o =
  sends (set_climate_hold (thermostat_index (this o)) "home"
                          (hold_preference (this o))) o.
Proof. reflexivity. Qed.

Lemma set_auto_temp_hold_sends (heat_temp cool_temp : Z) (o : Obj N) :
  set_auto_temp_hold heat_temp cool_temp o =
  sends_and_logs
    (set_hold_temp (thermostat_index (this o)) cool_temp heat_temp
                   (hold_preference (this o)))
    "Setting ecobee hold_temp to: heat=%s, is=%s, cool=%s, is=%s" o.
Proof. reflexivity. Qed.

Lemma set_operation_mode_sends (operation_mode : string) (o : Obj N) :
  set_operation_mode operation_mode o =
  sends (set_hvac_mode (thermostat_index (this o)) operation_mode) o.
Proof. reflexivity. Qed.

Lemma set_fan_min_on_time_sends (fan_min_on_time : string) (o : Obj N) :
  set_fan_min_on_time fan_min_on_time o =
  sends (ecobee_set_fan_min_on_time (thermostat_index (this o))
                                    fan_min_on_time) o.
Proof. reflexivity. Qed.

Lemma resume_program_sends (resume_all : bool) (o : Obj N) :
  resume_program resume_all o =
  sends (ecobee_resume_program (thermostat_index (this o))
           (Some (if resume_all then "true" else "false"))) o.
Proof. destruct resume_all; reflexivity. Qed.

Lemma set_temp_hold_heat (temp : Z) (o : Obj N) :
  current_operation (this o) = "heat" ->
  set_temp_hold temp o =
  sends_and_logs
    (set_hold_temp (thermostat_index (this o)) (temp + 20) temp
                   (hold_preference (this o)))
    "Setting ecobee hold_temp to: low=%s, is=%s, cool=%s, is=%s" o.
Proof.
  intros H. unfold set_temp_hold. run_method. rewrite H. reflexivity.
Qed.

Lemma set_temp_hold_cool (temp : Z) (o : Obj N) :
  current_operation (this o) = "cool" ->
  set_temp_hold temp o =
  sends_and_logs
    (set_hold_temp (thermostat_index (this o)) temp (temp - 20)
                   (hold_preference (this o)))
    "Setting ecobee hold_temp to: low=%s, is=%s, cool=%s, is=%s" o.
Proof.
  intros H. unfold set_temp_hold. run_method. rewrite H. reflexivity.
Qed.

Lemma set_temp_hold_other (temp : Z) (o : Obj N) :
  current_operation (this o) <> "heat" ->
  current_operation (this o) <> "cool" ->
  set_temp_hold temp o = (Raise (UnboundLocalError "cool_temp"), o).
Proof.
  intros Hh Hc. unfold set_temp_hold. run_method.
  apply string_eqb_false in Hh. apply string_eqb_false in Hc.
  unfold STATE_HEAT, STATE_COOL. rewrite Hh, Hc. reflexivity.
Qed.

Lemma sends_calls (q : Request) (o : Obj N) :
  vendor_calls (trace (world (snd (sends q o)))) =
  vendor_calls (trace (world o)) ++ [q].
Proof. simpl. now rewrite vendor_calls_app. Qed.

Lemma sends_and_logs_calls (q : Request) (msg : string) (o : Obj N) :
  vendor_calls (trace (world (snd (sends_and_logs q msg o)))) =
  vendor_calls (trace (world o)) ++ [q].
Proof.
  simpl. rewrite !vendor_calls_app. simpl. now rewrite app_nil_r.
Qed.

Lemma set_hold_mode_current (o : Obj N) :
  set_hold_mode (current_hold_mode (this o)) o = (Return tt, o).
Proof. unfold set_hold_mode. run_method. now rewrite eq_opt_refl. Qed.

Lemma set_temperature_auto (kwargs : Kwargs) (low high : Q) (o : Obj N) :
  current_operation (this o) = "auto" ->
  target_temp_low kwargs = Some low ->
  target_temp_high kwargs = Some high ->
  set_temperature kwargs o = set_auto_temp_hold (Py.int low) (Py.int high) o.
Proof.
  intros Ho Hl Hh. unfold set_temperature. run_method.
  unfold STATE_AUTO. now rewrite Ho, Hl, Hh.
Qed.

Lemma set_temperature_fallback (kwargs : Kwargs) (o : Obj N) :
  ~ (current_operation (this o) = "auto" /\
     target_temp_low kwargs <> None /\ target_temp_high kwargs <> None) ->
  set_temperature kwargs o =
  match temperature kwargs with
  | Some temp => set_temp_hold (Py.int temp) o
  | None =>
      (Return tt,
       {| this := this o;
          world := emit (Log ERROR
                     "Missing valid arguments for set_temperature in %s")
                     (world o) |})
  end.
Proof.
  intros Hn. unfold set_temperature. run_method.
  destruct (current_operation (this o) =? STATE_AUTO) eqn:Eo;
    [| now destruct (temperature kwargs)].
  destruct (target_temp_low kwargs) eqn:El;
    [| now destruct (temperature kwargs)].
  destruct (target_temp_high kwargs) eqn:Eh;
    [| now destruct (temperature kwargs)].
  exfalso. apply Hn. apply string_eqb_true in Eo.
  repeat split; [exact Eo | discriminate | discriminate].
Qed.

(** C5: [set_hold_mode] with the hold mode the snapshot already has
    returns at once: no request is sent and nothing changes, however
    often the call is repeated. *)
Theorem set_hold_mode_idempotent (o : Obj N) (target : option string) :
  target = current_hold_mode (this o) ->
  set_hold_mode target o = (Return tt, o) /\
  vendor_calls (trace (world (snd (set_hold_mode target o)))) =
    vendor_calls (trace (world o)) /\
  (set_hold_mode target ;; set_hold_mode target) o = (Return tt, o).
Proof.
  intros ->. pose proof (set_hold_mode_current o) as E.
  split; [exact E | split].
  - now rewrite E.
  - unfold bind. now rewrite E.
Qed.

(** C6: in [heat], [set_temp_hold temp] sends exactly one request, a
    setpoint hold with heat [temp] and cool [temp + 20]; in [cool], one
    with heat [temp - 20] and cool [temp]; both carry the resolved hold
    preference. *)
Theorem set_temp_hold_band (o : Obj N) (temp : Z) :
  (current_operation (this o) = "heat" ->
   fst (set_temp_hold temp o) = Return tt /\
   vendor_calls (trace (world (snd (set_temp_hold temp o)))) =
     vendor_calls (trace (world o)) ++
     [set_hold_temp (thermostat_index (this o)) (temp + 20) temp
                    (hold_preference (this o))]) /\
  (current_operation (this o) = "cool" ->
   fst (set_temp_hold temp o) = Return tt /\
   vendor_calls (trace (world (snd (set_temp_hold temp o)))) =
     vendor_calls (trace (world o)) ++
     [set_hold_temp (thermostat_index (this o)) temp (temp - 20)
                    (hold_preference (this o))]).
Proof.
  split; intros H.
  - rewrite (set_temp_hold_heat temp o H). split; [reflexivity |].
    apply sends_and_logs_calls.
  - rewrite (set_temp_hold_cool temp o H). split; [reflexivity |].
    apply sends_and_logs_calls.
Qed.

(** C7: [set_temp_hold] raises, for the unbound [cool_temp], exactly
    when the operation is neither [heat] nor [cool]; it raises before
    any request and leaves the entity and the world as they were; and
    [set_temperature] with only a target temperature runs into this
    when the operation is [auto]. *)
Theorem set_temp_hold_unbound (o : Obj N) (temp : Z) :
  (current_operation (this o) <> "heat" ->
   current_operation (this o) <> "cool" ->
   set_temp_hold temp o = (Raise (UnboundLocalError "cool_temp"), o)) /\
  ((exists e, fst (set_temp_hold temp o) = Raise e) <->
   current_operation (this o) <> "heat" /\
   current_operation (this o) <> "cool") /\
  (forall t : Q,
     current_operation (this o) = "auto" ->
     set_temperature {| target_temp_low := None; target_temp_high := None;
                        temperature := Some t |} o =
     (Raise (UnboundLocalError "cool_temp"), o)).
Proof.
  split; [| split].
  - apply set_temp_hold_other.
  - split.
    + intros [e He]. split; intros H.
      * rewrite (set_temp_hold_heat temp o H) in He. discriminate He.
      * rewrite (set_temp_hold_cool temp o H) in He. discriminate He.
    + intros [Hh Hc]. exists (UnboundLocalError "cool_temp").
      now rewrite set_temp_hold_other.
  - intros t H. unfold set_temperature. run_method.
    unfold STATE_AUTO. rewrite H. simpl.
    apply set_temp_hold_other; rewrite H; discriminate.
Qed.

(** C3: [set_temperature] in [auto] with a low and a high makes the one
    call [set_auto_temp_hold] with both truncated; otherwise, with a
    target temperature, the one call [set_temp_hold] with it truncated;
    otherwise it logs an error, sends no request, leaves the entity as
    it was and returns. *)
Theorem set_temperature_dispatch (o : Obj N) (kwargs : Kwargs) :
  (forall low high : Q,
     current_operation (this o) = "auto" ->
     target_temp_low kwargs = Some low ->
     target_temp_high kwargs = Some high ->
     set_temperature kwargs o =
       set_auto_temp_hold (Py.int low) (Py.int high) o /\
     vendor_calls (trace (world (snd (set_temperature kwargs o)))) =
       vendor_calls (trace (world o)) ++
       [set_hold_temp (thermostat_index (this o)) (Py.int high) (Py.int low)
                      (hold_preference (this o))]) /\
  (forall temp : Q,
     ~ (current_operation (this o) = "auto" /\
        target_temp_low kwargs <> None /\ target_temp_high kwargs <> None) ->
     temperature kwargs = Some temp ->
     set_temperature kwargs o = set_temp_hold (Py.int temp) o) /\
  (~ (current_operation (this o) = "auto" /\
      target_temp_low kwargs <> None /\ target_temp_high kwargs <> None) ->
   temperature kwargs = None ->
   set_temperature kwargs o =
     (Return tt,
      {| this := this o;
         world := emit (Log ERROR
                    "Missing valid arguments for set_temperature in %s")
                    (world o) |}) /\
   vendor_calls (trace (world (snd (set_temperature kwargs o)))) =
     vendor_calls (trace (world o)) /\
   this (snd (set_temperature kwargs o)) = this o).
Proof.
  split; [| split].
  - intros low high Ho Hl Hh.
    pose proof (set_temperature_auto kwargs low high o Ho Hl Hh) as E.
    split; [exact E |].
    rewrite E, set_auto_temp_hold_sends. apply sends_and_logs_calls.
  - intros temp Hn Ht.
    now rewrite (set_temperature_fallback kwargs o Hn), Ht.
  - intros Hn Ht.
    rewrite (set_temperature_fallback kwargs o Hn), Ht.
    split; [reflexivity | split; [| reflexivity]].
    simpl. rewrite vendor_calls_app. simpl. apply app_nil_r.
Qed.

Lemma sends_sent_one (q : Request) (o : Obj N) : sent_one o (sends q o).
Proof.
  split; [exists q; apply sends_calls | reflexivity].
Qed.

Lemma sends_and_logs_sent_one (q : Request) (msg : string) (o : Obj N) :
  sent_one o (sends_and_logs q msg o).
Proof.
  split; [exists q; apply sends_and_logs_calls | reflexivity].
Qed.

Lemma set_temp_hold_sent_one (temp : Z) (o : Obj N) :
  fst (set_temp_hold temp o) = Return tt ->
  sent_one o (set_temp_hold temp o).
Proof.
  intros H.
  destruct (current_operation (this o) =? "heat") eqn:Eh.
  - apply string_eqb_true in Eh.
    rewrite (set_temp_hold_heat temp o Eh). apply sends_and_logs_sent_one.
  - destruct (current_operation (this o) =? "cool") eqn:Ec.
    + apply string_eqb_true in Ec.
      rewrite (set_temp_hold_cool temp o Ec). apply sends_and_logs_sent_one.
    + apply string_eqb_false in Eh. apply string_eqb_false in Ec.
      rewrite (set_temp_hold_other temp o Eh Ec) in H. discriminate H.
Qed.

Lemma set_hold_mode_sent_one (hold_mode : option string) (o : Obj N) :
  hold_mode <> current_hold_mode (this o) ->
  fst (set_hold_mode hold_mode o) = Return tt ->
  sent_one o (set_hold_mode hold_mode o).
Proof.
  intros Hne. unfold set_hold_mode. run_method.
  destruct (Py.eq_opt (current_hold_mode (this o)) hold_mode) eqn:E.
  { apply eq_opt_true in E. now contradiction Hne. }
  destruct (Py.eq_opt hold_mode (Some "away")).
  { intros _. apply (sends_sent_one _ o). }
  destruct (Py.eq_opt hold_mode (Some "home")).
  { intros _. apply (sends_sent_one _ o). }
  destruct (Py.eq_opt hold_mode (Some "temp")).
  { apply set_temp_hold_sent_one. }
  intros _. apply (sends_sent_one _ o).
Qed.

Lemma set_temperature_sent_one (kwargs : Kwargs) (o : Obj N) :
  ~ declines (SetTemperature kwargs) (this o) ->
  fst (set_temperature kwargs o) = Return tt ->
  sent_one o (set_temperature kwargs o).
Proof.
  intros Hn. unfold set_temperature. run_method.
  destruct (current_operation (this o) =? STATE_AUTO) eqn:Eo.
  - destruct (target_temp_low kwargs) eqn:El.
    + destruct (target_temp_high kwargs) eqn:Eh.
      * intros _. rewrite set_auto_temp_hold_sends.
        apply sends_and_logs_sent_one.
      * destruct (temperature kwargs) eqn:Et.
        -- apply set_temp_hold_sent_one.
        -- exfalso. apply Hn. simpl. split; [exact Et |].
           rewrite Eh. intros (_ & _ & H). now apply H.
    + destruct (temperature kwargs) eqn:Et.
      * apply set_temp_hold_sent_one.
      * exfalso. apply Hn. simpl. split; [exact Et |].
        rewrite El. intros (_ & H & _). now apply H.
  - destruct (temperature kwargs) eqn:Et.
    + apply set_temp_hold_sent_one.
    + exfalso. apply Hn. simpl. split; [exact Et |].
      apply string_eqb_false in Eo. intros (H & _). now apply Eo.
Qed.

(** C1, amended: a command that returns has either declined the call,
    sending no request and leaving the entity as it was, or sent exactly
    one request and raised [update_without_throttle].  [update] with the
    flag raised fetches unthrottled and lowers the flag; with the flag
    down it makes a normal fetch; both then read the snapshot back by
    the unchanged [thermostat_index]. *)
Theorem deferred_refresh_flag (o : Obj N) (c : Command) :
  (fst (run c o) = Return tt ->
   (declines c (this o) /\
    vendor_calls (trace (world (snd (run c o)))) =
      vendor_calls (trace (world o)) /\
    this (snd (run c o)) = this o)
   \/
   (~ declines c (this o) /\ sent_one o (run c o))) /\
  (update_without_throttle (this o) = true ->
   trace (world (snd (update o))) =
     trace (world o) ++
     [DataUpdate true; GetThermostat (thermostat_index (this o))] /\
   network (world (snd (update o))) = data_update true (network (world o))) /\
  (update_without_throttle (this o) = false ->
   trace (world (snd (update o))) =
     trace (world o) ++
     [DataUpdate false; GetThermostat (thermostat_index (this o))] /\
   network (world (snd (update o))) = data_update false (network (world o))) /\
  update_without_throttle (this (snd (update o))) = false /\
  thermostat_index (this (snd (update o))) = thermostat_index (this o) /\
  (forall s : Snapshot,
     nth_error (thermostats (network (world (snd (update o)))))
               (thermostat_index (this o)) = Some s ->
     fst (update o) = Return tt /\ thermostat (this (snd (update o))) = s).
Proof.
  split.
  { intros H. destruct c; simpl in *.
    - destruct (Py.eq_opt hold_mode (current_hold_mode (this o))) eqn:E.
      + apply eq_opt_true in E. left. split; [exact E |].
        subst hold_mode. rewrite set_hold_mode_current.
        split; reflexivity.
      + right.
        assert (Hne : hold_mode <> current_hold_mode (this o)).
        { intros ->. rewrite eq_opt_refl in E. discriminate E. }
        split; [exact Hne |]. now apply set_hold_mode_sent_one.
    - right. split; [tauto |]. rewrite set_auto_temp_hold_sends.
      apply sends_and_logs_sent_one.
    - right. split; [tauto |]. now apply set_temp_hold_sent_one.
    - destruct (temperature kwargs) eqn:Et.
      + right.
        assert (Hn : ~ declines (SetTemperature kwargs) (this o)).
        { simpl. rewrite Et. intros [D _]. discriminate D. }
        split; [simpl in Hn; rewrite Et in Hn; exact Hn |].
        now apply set_temperature_sent_one.
      + destruct (current_operation (this o) =? "auto") eqn:Eo;
          [destruct (target_temp_low kwargs) as [low |] eqn:El;
           [destruct (target_temp_high kwargs) as [high |] eqn:Eh |] |].
        * right. apply string_eqb_true in Eo.
          split; [intros [_ D]; apply D; repeat split;
                  [exact Eo | discriminate | discriminate] |].
          rewrite (set_temperature_auto kwargs low high o Eo El Eh),
            set_auto_temp_hold_sends.
          apply sends_and_logs_sent_one.
        * assert (Hn : ~ (current_operation (this o) = "auto" /\
                          target_temp_low kwargs <> None /\
                          target_temp_high kwargs <> None)).
          { rewrite Eh. intros (_ & _ & D). now apply D. }
          left. split; [split; [reflexivity |
            intros (_ & _ & D); now apply D] |].
          rewrite (set_temperature_fallback kwargs o Hn), Et.
          split; [| reflexivity].
          simpl. rewrite vendor_calls_app. simpl. apply app_nil_r.
        * assert (Hn : ~ (current_operation (this o) = "auto" /\
                          target_temp_low kwargs <> None /\
                          target_temp_high kwargs <> None)).
          { rewrite El. intros (_ & D & _). now apply D. }
          left. split; [split; [reflexivity |
            intros (_ & D & _); now apply D] |].
          rewrite (set_temperature_fallback kwargs o Hn), Et.
          split; [| reflexivity].
          simpl. rewrite vendor_calls_app. simpl. apply app_nil_r.
        * assert (Hn : ~ (current_operation (this o) = "auto" /\
                          target_temp_low kwargs <> None /\
                          target_temp_high kwargs <> None)).
          { apply string_eqb_false in Eo. intros (D & _). now apply Eo. }
          left. split; [split; [reflexivity | exact Hn] |].
          rewrite (set_temperature_fallback kwargs o Hn), Et.
          split; [| reflexivity].
          simpl. rewrite vendor_calls_app. simpl. apply app_nil_r.
    - right. split; [tauto |]. apply (sends_sent_one _ o).
    - right. split; [tauto |]. apply (sends_sent_one _ o).
    - right. split; [tauto |]. rewrite resume_program_sends.
      apply sends_sent_one.
    - right. split; [tauto |]. apply (sends_sent_one _ o).
    - right. split; [tauto |]. apply (sends_sent_one _ o). }
  unfold update, in_world, get_thermostat, call_data_update, emit.
  run_method.
  destruct (update_without_throttle (this o)) eqn:F; simpl.
  - destruct (nth_error (thermostats (data_update true (network (world o))))
                        (thermostat_index (this o))) eqn:G; simpl;
      rewrite <- app_assoc; simpl;
      (split; [intros _; split; reflexivity |]);
      (split; [intros D; discriminate D |]);
      (split; [reflexivity |]); (split; [reflexivity |]);
      intros s' Hs; rewrite G in Hs;
      [injection Hs as <-; split; reflexivity | discriminate Hs].
  - destruct (nth_error (thermostats (data_update false (network (world o))))
                        (thermostat_index (this o))) eqn:G; simpl;
      rewrite <- app_assoc; simpl;
      (split; [intros D; discriminate D |]);
      (split; [intros _; split; reflexivity |]);
      (split; [exact F || reflexivity |]); (split; [reflexivity |]);
      intros s' Hs; rewrite G in Hs;
      [injection Hs as <-; split; reflexivity | discriminate Hs].
Qed.

End Commands.

(** ** The platform *)

Section PlatformProperties.

Context {N : Type} {service : EcobeeService N}.

Variable assign_entity_id : nat -> Thermostat -> option string.

(** *** Lists with positions *)

Lemma nth_error_combine_seq {A : Type} (l : list A) (a k : nat) :
  nth_error (combine (seq a (length l)) l) k =
  option_map (fun x => ((a + k)%nat, x)) (nth_error l k).
Proof.
  revert a k. induction l as [| x l IH]; intros a k.
  - destruct k; reflexivity.
  - destruct k; simpl.
    + now rewrite Nat.add_0_r.
    + rewrite IH. now rewrite Nat.add_succ_r.
Qed.

Lemma map_fst_combine_seq {A : Type} (l : list A) (a : nat) :
  map fst (combine (seq a (length l)) l) = seq a (length l).
Proof.
  revert a. induction l as [| x l IH]; intros a; simpl.
  - reflexivity.
  - now rewrite IH.
Qed.

Lemma filter_combine_seq {A : Type} (P : A -> bool) (l : list A) (a : nat) :
  map fst (filter (fun '(_, x) => P x) (combine (seq a (length l)) l)) =
  filter (fun k => match nth_error l (k - a) with
                   | Some x => P x
                   | None => false
                   end)
         (seq a (length l)).
Proof.
  revert a. induction l as [| x l IH]; intros a.
  - reflexivity.
  - cbn [length seq combine filter]. rewrite Nat.sub_diag. cbn [nth_error].
    assert (E : filter (fun k => match nth_error (x :: l) (k - a) with
                                 | Some y => P y
                                 | None => false
                                 end) (seq (S a) (length l)) =
                filter (fun k => match nth_error l (k - S a) with
                                 | Some y => P y
                                 | None => false
                                 end) (seq (S a) (length l))).
    { apply filter_ext_in. intros k Hk. apply in_seq in Hk.
      replace (k - a)%nat with (S (k - S a)) by lia. reflexivity. }
    destruct (P x); cbn [map fst]; rewrite E, IH; reflexivity.
Qed.

Lemma length_replace_nth {A : Type} (k : nat) (a : A) (l : list A) :
  length (replace_nth k a l) = length l.
Proof.
  revert k. induction l as [| x l IH]; intros k.
  - now destruct k.
  - destruct k; simpl; [reflexivity | now rewrite IH].
Qed.

Lemma nth_error_replace_same {A : Type} (k : nat) (a : A) (l : list A) :
  (k < length l)%nat -> nth_error (replace_nth k a l) k = Some a.
Proof.
  revert k. induction l as [| x l IH]; intros k H; simpl in H.
  - lia.
  - destruct k; simpl; [reflexivity | apply IH; lia].
Qed.

Lemma nth_error_replace_other {A : Type} (k j : nat) (a : A) (l : list A) :
  j <> k -> nth_error (replace_nth k a l) j = nth_error l j.
Proof.
  revert k j. induction l as [| x l IH]; intros k j H.
  - now destruct k.
  - destruct k, j; simpl; try reflexivity; try congruence.
    apply IH. congruence.
Qed.

(** *** Target resolution *)

Lemma target_thermostats_all (devs : list Thermostat) :
  target_thermostats None devs = seq 0 (length devs) /\
  target_thermostats (Some []) devs = seq 0 (length devs).
Proof.
  unfold target_thermostats, enumerate.
  split; apply map_fst_combine_seq.
Qed.

Lemma target_thermostats_some (ids : list string) (devs : list Thermostat) :
  ids <> [] ->
  target_thermostats (Some ids) devs =
  filter (selected ids devs) (seq 0 (length devs)).
Proof.
  intros H. destruct ids as [| first others]; [congruence |].
  unfold target_thermostats, enumerate, selected.
  rewrite filter_combine_seq. apply filter_ext.
  intros k. now rewrite Nat.sub_0_r.
Qed.

Lemma target_thermostats_in_range (ids : option (list string))
  (devs : list Thermostat) (k : nat) :
  In k (target_thermostats ids devs) -> (k < length devs)%nat.
Proof.
  destruct ids as [[| first others] |].
  - rewrite (proj2 (target_thermostats_all devs)), in_seq. lia.
  - rewrite target_thermostats_some by discriminate.
    rewrite filter_In, in_seq. lia.
  - rewrite (proj1 (target_thermostats_all devs)), in_seq. lia.
Qed.

(** *** The loop over the targets *)

Lemma flagged_nil (k : nat) (device : Thermostat) : flagged [] k device = device.
Proof. reflexivity. Qed.

Lemma fan_out_ext (q : Thermostat -> Request) (devs devs' : list Thermostat)
  (ks : list nat) :
  (forall k, nth_error devs' k = nth_error devs k \/
             exists d, nth_error devs k = Some d /\
                       nth_error devs' k =
                       Some (set_update_without_throttle true d)) ->
  (forall d, q (set_update_without_throttle true d) = q d) ->
  fan_out q devs' ks = fan_out q devs ks.
Proof.
  intros H Hq. unfold fan_out. apply flat_map_ext. intros k.
  destruct (H k) as [-> | (d & -> & ->)]; [reflexivity |].
  now rewrite Hq.
Qed.

Lemma for_each_on_device (q : Thermostat -> Request)
  (body : M (Obj N) unit) :
  (forall o, body o =
     (Return tt,
      {| this := set_update_without_throttle true (this o);
         world := emit (ScheduleUpdate (thermostat_index (this o)) true)
                       (call_request (q (this o)) (world o)) |})) ->
  (forall d, q (set_update_without_throttle true d) = q d) ->
  forall (ks : list nat) (h : Hass N),
    (forall k, In k ks -> (k < length (devices h))%nat) ->
    fst (for_each (fun k => on_device k body) ks h) =
      Return (map (fun _ => tt) ks) /\
    trace (hass_world (snd (for_each (fun k => on_device k body) ks h))) =
      trace (hass_world h) ++ fan_out q (devices h) ks /\
    forall k,
      nth_error (devices (snd (for_each (fun k => on_device k body) ks h))) k
      = option_map (flagged ks k) (nth_error (devices h) k).
Proof.
  intros Hbody Hq ks. induction ks as [| k0 ks IH]; intros h Hr.
  - simpl. split; [reflexivity | split].
    + now rewrite app_nil_r.
    + intros k. now destruct (nth_error (devices h) k).
  - assert (Hk0 : (k0 < length (devices h))%nat) by (apply Hr; now left).
    destruct (nth_error (devices h) k0) as [d0 |] eqn:E0;
      [| apply nth_error_None in E0; lia].
    set (h1 := {| hass_world :=
                    emit (ScheduleUpdate (thermostat_index d0) true)
                         (call_request (q d0) (hass_world h));
                  devices := replace_nth k0
                               (set_update_without_throttle true d0)
                               (devices h) |}).
    assert (E1 : on_device k0 body h = (Return tt, h1)).
    { unfold on_device. rewrite E0, Hbody. reflexivity. }
    assert (Hr1 : forall k, In k ks -> (k < length (devices h1))%nat).
    { intros k Hk. simpl. rewrite length_replace_nth. apply Hr. now right. }
    destruct (IH h1 Hr1) as (I1 & I2 & I3).
    destruct (for_each (fun k => on_device k body) ks h1) as [out h2] eqn:E2.
    cbn [fst snd] in I1, I2, I3. subst out.
    assert (E : for_each (fun k => on_device k body) (k0 :: ks) h =
                (Return (map (fun _ => tt) (k0 :: ks)), h2)).
    { cbn [for_each]. unfold bind. rewrite E1, E2. reflexivity. }
    rewrite E. cbn [fst snd].
    assert (Hd : forall k,
               nth_error (devices h1) k = nth_error (devices h) k \/
               exists d, nth_error (devices h) k = Some d /\
                         nth_error (devices h1) k =
                         Some (set_update_without_throttle true d)).
    { intros k. destruct (Nat.eq_dec k k0) as [-> | Hne].
      - right. exists d0. split; [exact E0 |].
        simpl. now apply nth_error_replace_same.
      - left. simpl. now apply nth_error_replace_other. }
    split; [reflexivity | split].
    + rewrite I2, (fan_out_ext q (devices h) (devices h1) ks Hd Hq).
      simpl. unfold fan_out at 2. cbn [flat_map]. rewrite E0.
      rewrite <- !app_assoc. reflexivity.
    + intros k. rewrite I3. unfold flagged. cbn [existsb].
      destruct (Nat.eq_dec k k0) as [-> | Hne].
      * simpl. rewrite (nth_error_replace_same _ _ _ Hk0), E0.
        rewrite Nat.eqb_refl. simpl.
        now destruct (existsb (Nat.eqb k0) ks).
      * simpl. rewrite (nth_error_replace_other _ _ _ _ Hne).
        apply Nat.eqb_neq in Hne. rewrite Hne. reflexivity.
Qed.

(** *** Construction *)

Lemma bind_return {S A B : Type} (m : M S A) (k : A -> M S B)
  (s s' : S) (a : A) :
  m s = (Return a, s') -> bind m k s = k a s'.
Proof. intros H. unfold bind. now rewrite H. Qed.

Lemma init_all (hold : bool) (ts : list Snapshot) :
  forall (pre : list Snapshot) (w : World N),
    thermostats (network w) = pre ++ ts ->
    for_each (fun index => Thermostat_init index hold)
             (seq (length pre) (length ts)) w =
    (Return (map (fun '(i, s) => fresh_thermostat i hold s)
                 (combine (seq (length pre) (length ts)) ts)),
     {| network := network w;
        trace := trace w ++ map GetThermostat (seq (length pre) (length ts)) |}).
Proof.
  induction ts as [| t ts IH]; intros pre w Hw.
  - simpl. unfold ret. destruct w. simpl. now rewrite app_nil_r.
  - cbn [length seq combine map for_each].
    assert (E : Thermostat_init (length pre) hold w =
                (Return (fresh_thermostat (length pre) hold t),
                 emit (GetThermostat (length pre)) w)).
    { unfold Thermostat_init, bind, get_thermostat.
      rewrite Hw, nth_error_app2, Nat.sub_diag by lia. reflexivity. }
    assert (Hw' : thermostats (network (emit (GetThermostat (length pre)) w))
                  = (pre ++ [t]) ++ ts).
    { simpl. rewrite Hw, <- app_assoc. reflexivity. }
    specialize (IH (pre ++ [t]) _ Hw').
    rewrite length_app, Nat.add_1_r in IH.
    unfold bind. rewrite E, IH. unfold ret. simpl.
    now rewrite <- app_assoc.
Qed.

Lemma fresh_indices (hold : bool) (ts : list Snapshot) (a : nat) :
  map thermostat_index
      (map (fun '(i, s) => fresh_thermostat i hold s)
           (combine (seq a (length ts)) ts)) = seq a (length ts).
Proof.
  revert a. induction ts as [| t ts IH]; intros a; simpl.
  - reflexivity.
  - now rewrite IH.
Qed.

(** C10, amended: without discovery context [setup_platform] returns
    and builds nothing; with it, it builds one entity per index of the
    service's thermostat list, in index order, hands them to the
    registry and registers the two services.  Each service aims at the
    entities whose entity id is in the given list, in their order, or
    at all entities when the list is missing or empty, and runs its
    command on each of them in turn: [set_fan_min_on_time] with the
    minutes as a decimal string, or [resume_program] with the
    resume-all flag. *)
Theorem platform_setup_and_services (h : Hass N) :
  setup_platform assign_entity_id None h = (Return tt, h) /\
  (forall info : DiscoveryInfo,
     let ts := thermostats (network (hass_world h)) in
     let r := setup_platform assign_entity_id (Some info) h in
     fst r = Return tt /\
     length (devices (snd r)) = length ts /\
     (forall (k : nat) (s : Snapshot),
        nth_error ts k = Some s ->
        let d := fresh_thermostat k (discovery_hold_temp info) s in
        nth_error (devices (snd r)) k =
        Some (set_entity_id (assign_entity_id k d) d)) /\
     trace (hass_world (snd r)) =
       trace (hass_world h) ++
       [Log INFO
          "Loading ecobee thermostat component with hold_temp set to %s"] ++
       map GetThermostat (seq 0 (length ts)) ++
       [AddDevices (seq 0 (length ts));
        RegisterService SERVICE_SET_FAN_MIN_ON_TIME;
        RegisterService SERVICE_RESUME_PROGRAM]) /\
  (forall ids : list string,
     ids <> [] ->
     target_thermostats (Some ids) (devices h) =
     filter (selected ids (devices h)) (seq 0 (length (devices h)))) /\
  target_thermostats None (devices h) = seq 0 (length (devices h)) /\
  target_thermostats (Some []) (devices h) = seq 0 (length (devices h)) /\
  (forall data : SetFanMinOnTimeData,
     let targets := target_thermostats (fan_entity_id data) (devices h) in
     let r := fan_min_on_time_set_service data h in
     fst r = Return tt /\
     trace (hass_world (snd r)) =
       trace (hass_world h) ++
       fan_out (fun d => ecobee_set_fan_min_on_time
                           (thermostat_index d)
                           (Py.str_int (fan_minutes data)))
               (devices h) targets /\
     forall k : nat,
       nth_error (devices (snd r)) k =
       option_map (flagged targets k) (nth_error (devices h) k)) /\
  (forall data : ResumeProgramData,
     let targets := target_thermostats (resume_entity_id data) (devices h) in
     let r := resume_program_set_service data h in
     fst r = Return tt /\
     trace (hass_world (snd r)) =
       trace (hass_world h) ++
       fan_out (fun d => ecobee_resume_program
                           (thermostat_index d)
                           (Some (if resume_all_flag data
                                  then "true" else "false")))
               (devices h) targets /\
     forall k : nat,
       nth_error (devices (snd r)) k =
       option_map (flagged targets k) (nth_error (devices h) k)).
Proof.
  split; [reflexivity |].
  split.
  { intros info ts r.
    assert (E : r =
      (Return tt,
       {| hass_world :=
            {| network := network (hass_world h);
               trace := trace (hass_world h) ++
                 [Log INFO
                   "Loading ecobee thermostat component with hold_temp set to %s"]
                 ++ map GetThermostat (seq 0 (length ts)) ++
                 [AddDevices (seq 0 (length ts));
                  RegisterService SERVICE_SET_FAN_MIN_ON_TIME;
                  RegisterService SERVICE_RESUME_PROGRAM] |};
          devices :=
            map (fun '(k, device) =>
                   set_entity_id (assign_entity_id k device) device)
                (enumerate
                   (map (fun '(i, s) =>
                           fresh_thermostat i (discovery_hold_temp info) s)
                        (enumerate ts))) |})).
    { subst r. unfold setup_platform.
      set (w1 := emit (Log INFO
                 "Loading ecobee thermostat component with hold_temp set to %s")
                 (hass_world h)).
      pose proof (init_all (discovery_hold_temp info) ts [] w1 eq_refl) as HI.
      cbn [length] in HI.
      erewrite bind_return by reflexivity.
      erewrite bind_return by reflexivity.
      erewrite bind_return.
      2:{ unfold in_hass_world. cbn [hass_world devices network emit].
          unfold ts, w1 in HI. rewrite HI. reflexivity. }
      unfold add_devices, register, in_hass_world, bind, modify, emit, enumerate.
      cbn [fst snd hass_world devices network trace].
      unfold ts.
      rewrite (fresh_indices (discovery_hold_temp info)).
      rewrite <- !app_assoc. reflexivity. }
    rewrite E. cbn [fst snd hass_world devices trace].
    split; [reflexivity | split; [| split; [| reflexivity]]].
    - unfold enumerate.
      rewrite length_map, length_combine, length_seq, !length_map,
        length_combine, length_seq, !Nat.min_id. reflexivity.
    - intros k s Hs. unfold enumerate.
      rewrite nth_error_map, nth_error_combine_seq, nth_error_map,
        nth_error_combine_seq, Hs. reflexivity. }
  split; [intros ids Hids; now apply target_thermostats_some |].
  split; [apply (proj1 (target_thermostats_all (devices h))) |].
  split; [apply (proj2 (target_thermostats_all (devices h))) |].
  split.
  - intros data targets r.
    destruct (for_each_on_device
                (fun d => ecobee_set_fan_min_on_time
                            (thermostat_index d)
                            (Py.str_int (fan_minutes data)))
                (set_fan_min_on_time (Py.str_int (fan_minutes data)) ;;
                 schedule_update_ha_state true)
                (fun o => eq_refl) (fun d => eq_refl) targets h
                (target_thermostats_in_range _ _)) as (I1 & I2 & I3).
    destruct (for_each _ targets h) as [out h2] eqn:E2.
    cbn [fst snd] in I1, I2, I3. subst out.
    assert (E : r = (Return tt, h2)).
    { subst r. unfold fan_min_on_time_set_service.
      erewrite bind_return by reflexivity.
      erewrite bind_return by exact E2. reflexivity. }
    rewrite E. split; [reflexivity | split; assumption].
  - intros data targets r.
    destruct (for_each_on_device
                (fun d => ecobee_resume_program
                            (thermostat_index d)
                            (Some (if resume_all_flag data
                                   then "true" else "false")))
                (resume_program (resume_all_flag data) ;;
                 schedule_update_ha_state true)
                (fun o => match resume_all_flag data as b return
                            (resume_program b ;; schedule_update_ha_state true) o
                            = (Return tt,
                               {| this := set_update_without_throttle true (this o);
                                  world :=
                                    emit (ScheduleUpdate (thermostat_index (this o)) true)
                                      (call_request
                                         (ecobee_resume_program
                                            (thermostat_index (this o))
                                            (Some (if b then "true" else "false")))
                                         (world o)) |})
                          with
                          | true => eq_refl
                          | false => eq_refl
                          end)
                (fun d => eq_refl) targets h
                (target_thermostats_in_range _ _)) as (I1 & I2 & I3).
    destruct (for_each _ targets h) as [out h2] eqn:E2.
    cbn [fst snd] in I1, I2, I3. subst out.
    assert (E : r = (Return tt, h2)).
    { subst r. unfold resume_program_set_service.
      erewrite bind_return by reflexivity.
      erewrite bind_return by exact E2. reflexivity. }
    rewrite E. split; [reflexivity | split; assumption].
Qed.

End PlatformProperties.

(** ** Instances of the properties on the sample data *)

Lemma set_hold_mode_idempotent_witness :
  set_hold_mode None (sample_obj "heat") = (Return tt, sample_obj "heat") /\
  vendor_calls (trace (world (snd (set_hold_mode None (sample_obj "heat"))))) = [].
Proof.
  destruct (set_hold_mode_idempotent (sample_obj "heat") None eq_refl)
    as (E & C & _).
  split; [exact E | exact C].
Defined.

Lemma set_temp_hold_band_witness :
  vendor_calls (trace (world (snd (set_temp_hold 70 (sample_obj "heat"))))) =
    [set_hold_temp 0 90 70 "nextTransition"] /\
  vendor_calls (trace (world (snd (set_temp_hold 70 (sample_obj "cool"))))) =
    [set_hold_temp 0 70 50 "nextTransition"].
Proof.
  split.
  - exact (proj2 (proj1 (set_temp_hold_band (sample_obj "heat") 70) eq_refl)).
  - exact (proj2 (proj2 (set_temp_hold_band (sample_obj "cool") 70) eq_refl)).
Defined.

Lemma set_temp_hold_unbound_witness :
  set_temp_hold 70 (sample_obj "off") =
    (Raise (UnboundLocalError "cool_temp"), sample_obj "off") /\
  set_temperature only_target (sample_obj "auto") =
    (Raise (UnboundLocalError "cool_temp"), sample_obj "auto").
Proof.
  split.
  - apply (proj1 (set_temp_hold_unbound (sample_obj "off") 70)).
    + simpl. discriminate.
    + simpl. discriminate.
  - apply (proj2 (proj2 (set_temp_hold_unbound (sample_obj "auto") 70))).
    reflexivity.
Defined.

Lemma set_temperature_dispatch_witness :
  vendor_calls
    (trace (world (snd (set_temperature low_and_high (sample_obj "auto"))))) =
    [set_hold_temp 0 80 60 "nextTransition"] /\
  set_temperature only_target (sample_obj "heat") =
    set_temp_hold 70 (sample_obj "heat") /\
  vendor_calls
    (trace (world (snd (set_temperature no_arguments (sample_obj "heat"))))) =
    [] /\
  this (snd (set_temperature no_arguments (sample_obj "heat"))) =
    this (sample_obj "heat").
Proof.
  refine (conj _ (conj _ _)).
  - exact (proj2 (proj1 (set_temperature_dispatch (sample_obj "auto")
                           low_and_high)
                    (601 # 10)%Q (80 # 1)%Q eq_refl eq_refl eq_refl)).
  - apply (proj1 (proj2 (set_temperature_dispatch (sample_obj "heat")
                           only_target)) (705 # 10)%Q).
    + simpl. intros (H & _). discriminate H.
    + reflexivity.
  - apply (proj2 (proj2 (set_temperature_dispatch (sample_obj "heat")
                           no_arguments))).
    + simpl. intros (H & _). discriminate H.
    + reflexivity.
Defined.

(** [set_hold_mode] with the current hold mode, and [set_temperature]
    without arguments, return with the flag still down. *)
Lemma command_may_leave_flag_down :
  fst (run (SetHoldMode None) (sample_obj "heat")) = Return tt /\
  update_without_throttle
    (this (snd (run (SetHoldMode None) (sample_obj "heat")))) = false /\
  fst (run (SetTemperature no_arguments) (sample_obj "heat")) = Return tt /\
  update_without_throttle
    (this (snd (run (SetTemperature no_arguments) (sample_obj "heat")))) = false.
Proof. repeat split. Qed.

Lemma deferred_refresh_flag_witness :
  update_without_throttle
    (this (snd (run (SetOperationMode "cool") (sample_obj "heat")))) = true /\
  trace (world (snd (update
                       (snd (run (SetOperationMode "cool") (sample_obj "heat"))))))
    = [Vendor (set_hvac_mode 0 "cool"); DataUpdate true; GetThermostat 0] /\
  trace (world (snd (update (sample_obj "heat")))) =
    [DataUpdate false; GetThermostat 0] /\
  thermostat (this (snd (update (sample_obj "cool")))) =
    sample_snapshot "cool" "askMe" [].
Proof.
  refine (conj _ (conj _ (conj _ _))).
  - destruct (proj1 (deferred_refresh_flag (sample_obj "heat")
                       (SetOperationMode "cool")) eq_refl)
      as [(D & _) | (_ & _ & F)]; [destruct D | exact F].
  - exact (proj1 (proj1 (proj2 (deferred_refresh_flag
             (snd (run (SetOperationMode "cool") (sample_obj "heat")))
             TurnAwayModeOn)) eq_refl)).
  - exact (proj1 (proj1 (proj2 (proj2 (deferred_refresh_flag
             (sample_obj "heat") TurnAwayModeOn))) eq_refl)).
  - exact (proj2 (proj2 (proj2 (proj2 (proj2 (proj2 (deferred_refresh_flag
             (sample_obj "cool") TurnAwayModeOn))))) _ eq_refl)).
Defined.

(** A service call with an empty entity list reaches an entity whose
    id is not in that list. *)
Lemma empty_entity_list_targets_all :
  filter (selected [] (devices sample_single))
         (seq 0 (length (devices sample_single))) = [] /\
  target_thermostats (Some []) (devices sample_single) = [0%nat] /\
  vendor_calls
    (trace (hass_world (snd (fan_min_on_time_set_service
                               {| fan_entity_id := Some []; fan_minutes := 5 |}
                               sample_single)))) =
    [ecobee_set_fan_min_on_time 0 "5"].
Proof. repeat split. Qed.

Lemma platform_setup_and_services_witness :
  nth_error (devices (snd (setup_platform sample_entity_id
                             (Some {| discovery_hold_temp := true |})
                             sample_pair))) 1 =
    Some (set_entity_id (Some "climate.attic")
            (fresh_thermostat 1 true (sample_snapshot "heat" "askMe" []))) /\
  target_thermostats (Some ["climate.attic"]) (devices sample_pair) = [1%nat] /\
  trace (hass_world (snd (fan_min_on_time_set_service
                            {| fan_entity_id := Some ["climate.attic"];
                               fan_minutes := 15 |}
                            sample_pair))) =
    [Vendor (ecobee_set_fan_min_on_time 1 "15"); ScheduleUpdate 1 true] /\
  trace (hass_world (snd (resume_program_set_service
                            {| resume_entity_id := None;
                               resume_all_flag := true |}
                            sample_pair))) =
    [Vendor (ecobee_resume_program 0 (Some "true")); ScheduleUpdate 0 true;
     Vendor (ecobee_resume_program 1 (Some "true")); ScheduleUpdate 1 true].
Proof.
  pose proof (platform_setup_and_services sample_entity_id sample_pair)
    as (_ & Hsetup & Hsome & _ & _ & Hfan & Hresume).
  refine (conj _ (conj _ (conj _ _))).
  - exact (proj1 (proj2 (proj2 (Hsetup {| discovery_hold_temp := true |})))
             1%nat (sample_snapshot "heat" "askMe" []) eq_refl).
  - apply (Hsome ["climate.attic"]). discriminate.
  - exact (proj1 (proj2 (Hfan {| fan_entity_id := Some ["climate.attic"];
                                 fan_minutes := 15 |}))).
  - exact (proj1 (proj2 (Hresume {| resume_entity_id := None;
                                    resume_all_flag := true |}))).
Defined.

(** * Further properties *)

(** ** Events *)

Lemma existsb_permutation {A : Type} (f : A -> bool) (l l' : list A) :
  Permutation l l' -> existsb f l = existsb f l'.
Proof.
  induction 1 as [| x l l' _ IH | x y l | l l' l'' _ IH1 _ IH2]; simpl.
  - reflexivity.
  - now rewrite IH.
  - now rewrite !orb_assoc, (orb_comm (f y)).
  - now rewrite IH1.
Qed.

Lemma existsb_agree {A : Type} (f : A -> bool) (l l' : list A) :
  Forall2 (fun a b => f a = f b) l l' -> existsb f l = existsb f l'.
Proof.
  induction 1 as [| a b l l' E _ IH]; simpl.
  - reflexivity.
  - now rewrite E, IH.
Qed.

(** X1: the order of the events does not matter: two thermostats whose
    event lists are permutations of one another agree on vacation,
    temperature hold, away mode, home mode and the current hold mode. *)
Theorem hold_mode_ignores_event_order (self other : Thermostat) :
  Permutation (events (thermostat self)) (events (thermostat other)) ->
  is_vacation_on self = is_vacation_on other /\
  is_temp_hold_on self = is_temp_hold_on other /\
  is_away_mode_on self = is_away_mode_on other /\
  is_home_mode_on self = is_home_mode_on other /\
  current_hold_mode self = current_hold_mode other.
Proof.
  intros P.
  assert (V : is_vacation_on self = is_vacation_on other)
    by (apply existsb_permutation, P).
  assert (T : is_temp_hold_on self = is_temp_hold_on other)
    by (apply existsb_permutation, P).
  assert (A : is_away_mode_on self = is_away_mode_on other)
    by (apply existsb_permutation, P).
  assert (H : is_home_mode_on self = is_home_mode_on other)
    by (apply existsb_permutation, P).
  repeat split; try assumption.
  unfold current_hold_mode. now rewrite A, H, T.
Qed.

Lemma hold_mode_ignores_event_order_witness :
  current_hold_mode (sample_thermostat "heat" "askMe" (rev auto_away_and_hold))
  = current_hold_mode (sample_thermostat "heat" "askMe" auto_away_and_hold).
Proof.
  apply (hold_mode_ignores_event_order
           (sample_thermostat "heat" "askMe" (rev auto_away_and_hold))
           (sample_thermostat "heat" "askMe" auto_away_and_hold)).
  simpl. apply perm_swap.
Defined.

(** X2: away mode and home mode do not look at [running]: two
    thermostats whose events agree in type and climate reference agree
    on both, whatever the running flags; a temperature hold and a
    vacation, by contrast, are off when no event is running. *)
Theorem away_and_home_ignore_running (self other : Thermostat) :
  (Forall2 (fun e e' => type e = type e' /\
                        holdClimateRef e = holdClimateRef e')
           (events (thermostat self)) (events (thermostat other)) ->
   is_away_mode_on self = is_away_mode_on other /\
   is_home_mode_on self = is_home_mode_on other) /\
  (Forall (fun e => running e = false) (events (thermostat self)) ->
   is_temp_hold_on self = false /\ is_vacation_on self = false).
Proof.
  split.
  - intros F. split; apply existsb_agree;
      (eapply Forall2_impl; [| exact F]);
      intros e e' [-> ->]; reflexivity.
  - intros F. unfold is_temp_hold_on, is_vacation_on.
    induction F as [| e l E _ [IH1 IH2]]; simpl.
    + split; reflexivity.
    + rewrite E, IH1, IH2, !andb_false_r. split; reflexivity.
Qed.

Lemma away_and_home_ignore_running_witness :
  is_away_mode_on (sample_thermostat "heat" "askMe" stale_auto_away) =
    is_away_mode_on (sample_thermostat "heat" "askMe" auto_away_and_hold) /\
  is_temp_hold_on
    (sample_thermostat "heat" "askMe"
       [ {| type := "hold"; running := false; holdClimateRef := "" |} ])
    = false.
Proof.
  split.
  - apply (proj1 (away_and_home_ignore_running
                    (sample_thermostat "heat" "askMe" stale_auto_away)
                    (sample_thermostat "heat" "askMe" auto_away_and_hold))).
    simpl. repeat constructor.
  - apply (proj2 (away_and_home_ignore_running
                    (sample_thermostat "heat" "askMe"
                       [ {| type := "hold"; running := false;
                            holdClimateRef := "" |} ])
                    (sample_thermostat "heat" "askMe" []))).
    simpl. repeat constructor.
Defined.

(** ** Operation and targets *)

(** X3: the normalised operation is never one of the raw heat modes
    [auxHeatOnly] and [heatPump]. *)
Theorem current_operation_never_raw (self : Thermostat) :
  current_operation self <> "auxHeatOnly" /\
  current_operation self <> "heatPump".
Proof.
  unfold current_operation.
  destruct (operation_mode self =? "auxHeatOnly") eqn:Ea; simpl.
  - split; discriminate.
  - destruct (operation_mode self =? "heatPump") eqn:Ep.
    + split; discriminate.
    + split; now apply string_eqb_false.
Qed.

(** X4: a thermostat never shows a single target together with a
    range: where [target_temperature] is present both bounds are
    absent, and the two bounds are present or absent together. *)
Theorem single_target_or_range (self : Thermostat) :
  (target_temperature self = None \/
   (target_temperature_low self = None /\
    target_temperature_high self = None)) /\
  (target_temperature_low self = None <->
   target_temperature_high self = None).
Proof.
  unfold target_temperature, target_temperature_low, target_temperature_high.
  destruct (current_operation self =? STATE_AUTO).
  - split; [now left | split; discriminate].
  - split; [right; split; reflexivity | split; reflexivity].
Qed.

Lemma quot_10_bounds (x : Z) :
  Z.abs (x - 10 * (x ÷ 10)) < 10 /\ Z.abs (10 * (x ÷ 10)) <= Z.abs x.
Proof.
  split.
  - pose proof (Z.quot_rem' x 10) as E.
    pose proof (Z.rem_bound_abs x 10 ltac:(lia)). lia.
  - destruct (Z.le_gt_cases 0 x) as [H | H].
    + pose proof (Z.quot_pos x 10 H ltac:(lia)).
      pose proof (Z.mul_quot_le x 10 H ltac:(lia)). lia.
    + assert (E : x ÷ 10 = - (- x ÷ 10)).
      { rewrite Z.quot_opp_l by lia. lia. }
      pose proof (Z.quot_pos (- x) 10 ltac:(lia) ltac:(lia)).
      pose proof (Z.mul_quot_le (- x) 10 ltac:(lia) ltac:(lia)). lia.
Qed.

(** X5: a target shown in whole degrees is less than one degree away
    from the setpoint in tenths it comes from, and never beyond it:
    this holds for [target_temperature] against the desired heat or
    cool of the operation, and for both bounds of the range. *)
Theorem targets_within_a_degree (self : Thermostat) (t : Z) :
  let heat := desiredHeat (runtime (thermostat self)) in
  let cool := desiredCool (runtime (thermostat self)) in
  (target_temperature self = Some t ->
   (current_operation self = "heat" /\
    Z.abs (heat - 10 * t) < 10 /\ Z.abs (10 * t) <= Z.abs heat) \/
   (current_operation self = "cool" /\
    Z.abs (cool - 10 * t) < 10 /\ Z.abs (10 * t) <= Z.abs cool)) /\
  (target_temperature_low self = Some t ->
   Z.abs (heat - 10 * t) < 10 /\ Z.abs (10 * t) <= Z.abs heat) /\
  (target_temperature_high self = Some t ->
   Z.abs (cool - 10 * t) < 10 /\ Z.abs (10 * t) <= Z.abs cool).
Proof.
  cbv zeta.
  unfold target_temperature, target_temperature_low, target_temperature_high.
  rewrite !int_truediv_10.
  destruct (current_operation self =? STATE_AUTO).
  - split; [discriminate |].
    split; intros [= <-]; apply quot_10_bounds.
  - split; [| split; discriminate].
    destruct (current_operation self =? STATE_HEAT) eqn:Eh.
    + intros [= <-]. left. apply string_eqb_true in Eh.
      split; [exact Eh | apply quot_10_bounds].
    + destruct (current_operation self =? STATE_COOL) eqn:Ec;
        [| discriminate].
      intros [= <-]. right. apply string_eqb_true in Ec.
      split; [exact Ec | apply quot_10_bounds].
Qed.

Lemma targets_within_a_degree_witness :
  Z.abs (desiredHeat (runtime (thermostat
                        (sample_thermostat "heat" "askMe" []))) - 10 * 72)
    < 10 /\
  Z.abs (desiredCool (runtime (thermostat
                        (sample_thermostat "auto" "askMe" []))) - 10 * 78)
    < 10.
Proof.
  split.
  - destruct (proj1 (targets_within_a_degree
                       (sample_thermostat "heat" "askMe" []) 72) eq_refl)
      as [(_ & B & _) | (E & _)]; [exact B | discriminate E].
  - exact (proj1 (proj2 (proj2 (targets_within_a_degree
                                  (sample_thermostat "auto" "askMe" []) 78))
                    eq_refl)).
Defined.

(** X6: [hold_preference] has two values only, [nextTransition] and
    [indefinite]. *)
Theorem hold_preference_two_valued (self : Thermostat) :
  hold_preference self = "nextTransition" \/
  hold_preference self = "indefinite".
Proof.
  unfold hold_preference. cbv zeta.
  destruct (holdAction (settings (thermostat self)) =? "nextTransition") eqn:En.
  - left. now apply string_eqb_true.
  - destruct (holdAction (settings (thermostat self)) =? "indefinite") eqn:Ei.
    + right. now apply string_eqb_true.
    + now left.
Qed.

(** ** Equipment status *)

Lemma prefix_app (sub s : string) :
  String.prefix sub s = true <-> exists post, s = (sub ++ post)%string.
Proof.
  revert s. induction sub as [| a sub IH]; intros s.
  - split; [intros _; now exists s | intros _; now destruct s].
  - destruct s as [| b s]; simpl.
    + split; [discriminate | intros [post H]; discriminate H].
    + destruct (ascii_dec a b) as [-> | Hne].
      * rewrite IH. split; intros [post H]; exists post.
        -- now rewrite H.
        -- now injection H.
      * split; [discriminate |].
        intros [post H]. injection H as H1 _. now contradiction Hne.
Qed.

Lemma str_in_spec (sub s : string) :
  Py.str_in sub s = true <->
  exists pre post, s = (pre ++ sub ++ post)%string.
Proof.
  induction s as [| c s IH].
  - cbn [Py.str_in]. rewrite prefix_app. split.
    + intros [post H]. now exists ""%string, post.
    + intros (pre & post & H). destruct pre; [now exists post | discriminate H].
  - cbn [Py.str_in]. rewrite orb_true_iff, prefix_app, IH. split.
    + intros [[post H] | (pre & post & H)].
      * now exists ""%string, post.
      * exists (String c pre), post. simpl. now rewrite H.
    + intros (pre & post & H). destruct pre as [| c' pre]; simpl in H.
      * left. now exists post.
      * right. injection H as _ H. now exists pre, post.
Qed.

(** X7: the fan is [on] exactly when [fan] occurs somewhere in the
    equipment status, and [off] otherwise. *)
Theorem fan_on_iff_status_mentions_fan (self : Thermostat) :
  (fan self = "on" <->
   exists pre post,
     equipmentStatus (thermostat self) = (pre ++ "fan" ++ post)%string) /\
  (fan self = "on" \/ fan self = "off").
Proof.
  unfold fan. rewrite <- str_in_spec.
  destruct (Py.str_in "fan" (equipmentStatus (thermostat self))); split.
  - split; reflexivity.
  - now left.
  - split; discriminate.
  - now right.
Qed.

Lemma fan_on_iff_status_mentions_fan_witness :
  fan (sample_equipment "compCool1,fan") = "on".
Proof.
  apply (proj1 (fan_on_iff_status_mentions_fan
                  (sample_equipment "compCool1,fan"))).
  exists "compCool1,"%string, ""%string. reflexivity.
Defined.

Ltac settle_cases :=
  unfold not, STATE_IDLE, STATE_COOL, STATE_HEAT; intros; simpl in *;
  try reflexivity; try congruence;
  try (repeat match goal with H : _ \/ _ |- _ => destruct H end; congruence).

(** X8: the [operation] attribute is [idle] for an empty status, [cool]
    for any status that mentions [Cool], also beside [auxHeat] or
    [heatPump], and [heat] for a status that mentions [auxHeat] or
    [heatPump] and not [Cool]; every other status is passed on as it
    is; the attribute is never empty. *)
Theorem operation_attribute_classified (self : Thermostat) :
  let status := equipmentStatus (thermostat self) in
  let operation := attr_operation (device_state_attributes self) in
  (status = "" -> operation = "idle") /\
  ((exists pre post, status = (pre ++ "Cool" ++ post)%string) ->
   operation = "cool") /\
  (~ (exists pre post, status = (pre ++ "Cool" ++ post)%string) ->
   (exists pre post, status = (pre ++ "auxHeat" ++ post)%string) \/
   (exists pre post, status = (pre ++ "heatPump" ++ post)%string) ->
   operation = "heat") /\
  (status <> "" ->
   ~ (exists pre post, status = (pre ++ "Cool" ++ post)%string) ->
   ~ (exists pre post, status = (pre ++ "auxHeat" ++ post)%string) ->
   ~ (exists pre post, status = (pre ++ "heatPump" ++ post)%string) ->
   operation = status) /\
  operation <> "".
Proof.
  cbv zeta. unfold device_state_attributes. cbn [attr_operation].
  rewrite <- !str_in_spec.
  generalize (equipmentStatus (thermostat self)) as status. intros status.
  destruct (status =? "") eqn:E0.
  - apply string_eqb_true in E0. subst status.
    repeat split; settle_cases.
  - apply string_eqb_false in E0.
    destruct (Py.str_in "Cool" status) eqn:Ec;
      [| destruct (Py.str_in "auxHeat" status) eqn:Ea;
         [| destruct (Py.str_in "heatPump" status) eqn:Ep]];
      repeat split; settle_cases.
Qed.

Lemma operation_attribute_classified_witness :
  attr_operation (device_state_attributes (sample_equipment "")) = "idle" /\
  attr_operation (device_state_attributes
                    (sample_equipment "auxHeat1,compCool1,fan")) = "cool" /\
  attr_operation (device_state_attributes (sample_equipment "heatPump2,fan"))
    = "heat" /\
  attr_operation (device_state_attributes (sample_equipment "fan")) = "fan".
Proof.
  refine (conj _ (conj _ (conj _ _))).
  - apply (proj1 (operation_attribute_classified (sample_equipment ""))).
    reflexivity.
  - apply (proj1 (proj2 (operation_attribute_classified
                           (sample_equipment "auxHeat1,compCool1,fan")))).
    exists "auxHeat1,comp"%string, "1,fan"%string. reflexivity.
  - apply (proj1 (proj2 (proj2 (operation_attribute_classified
                                  (sample_equipment "heatPump2,fan"))))).
    + rewrite <- str_in_spec. simpl. discriminate.
    + right. exists ""%string, "2,fan"%string. reflexivity.
  - apply (proj1 (proj2 (proj2 (proj2 (operation_attribute_classified
                                         (sample_equipment "fan")))))).
    + simpl. discriminate.
    + rewrite <- str_in_spec. simpl. discriminate.
    + rewrite <- str_in_spec. simpl. discriminate.
    + rewrite <- str_in_spec. simpl. discriminate.
Defined.

(** ** Serialised arguments *)

(** X9: the decimal string that carries the fan minutes reads back as
    the same integer, so different minutes give different strings. *)
Theorem str_int_round_trip (n m : Z) :
  Py.int_of_str (Py.str_int n) = Some n /\
  (n <> m -> Py.str_int n <> Py.str_int m).
Proof.
  assert (R : forall k, Py.int_of_str (Py.str_int k) = Some k).
  { intros k. unfold Py.int_of_str, Py.str_int.
    rewrite NilZero.isi.
    - simpl. now rewrite DecimalZ.of_to.
    - destruct k; simpl; try discriminate.
      intros [= H]. now apply (DecimalPos.Unsigned.to_uint_nonnil p).
    - destruct k; simpl; try discriminate.
      intros [= H]. now apply (DecimalPos.Unsigned.to_uint_nonnil p). }
  split; [apply R |].
  intros Hne E. apply Hne.
  pose proof (R n) as Hn. rewrite E, R in Hn. now injection Hn.
Qed.

Lemma str_int_round_trip_witness :
  Py.int_of_str (Py.str_int (-15)) = Some (-15) /\
  Py.str_int 15 <> Py.str_int 150.
Proof.
  split.
  - exact (proj1 (str_int_round_trip (-15) 0)).
  - apply (proj2 (str_int_round_trip 15 150)). lia.
Defined.

(** ** What commands leave behind *)

Section CommandFootprints.

Context {N : Type} {service : EcobeeService N}.

Lemma view_reads (a b : Thermostat) :
  thermostat a = thermostat b ->
  current_operation a = current_operation b /\
  current_hold_mode a = current_hold_mode b /\
  hold_preference a = hold_preference b /\
  current_temperature a = current_temperature b.
Proof.
  intros H.
  unfold current_operation, operation_mode, current_hold_mode,
    is_away_mode_on, is_home_mode_on, is_temp_hold_on, hold_preference,
    current_temperature.
  rewrite H. repeat split.
Qed.

Lemma hold_preference_cases (self : Thermostat) :
  hold_preference self = "nextTransition" \/
  hold_preference self = "indefinite".
Proof.
  unfold hold_preference. cbv zeta.
  destruct (holdAction (settings (thermostat self)) =? "nextTransition") eqn:En.
  - left. now apply string_eqb_true.
  - destruct (holdAction (settings (thermostat self)) =? "indefinite") eqn:Ei.
    + right. now apply string_eqb_true.
    + now left.
Qed.

Lemma trace_perform (e : Effect) (w : World N) :
  trace (perform e w) = trace w ++ [e].
Proof. destruct e; reflexivity. Qed.

Lemma trace_perform_all (evs : list Effect) (w : World N) :
  trace (perform_all evs w) = trace w ++ evs.
Proof.
  revert w. induction evs as [| e evs IH]; intros w.
  - simpl. now rewrite app_nil_r.
  - change (perform_all (e :: evs) w) with (perform_all evs (perform e w)).
    rewrite IH, trace_perform, <- app_assoc. reflexivity.
Qed.

Lemma footprint_sends (m : M (Obj N) unit) (self : Thermostat) (q : Request) :
  well_addressed self q ->
  (forall o, same_view self (this o) -> m o = sends q o) ->
  footprint m self.
Proof.
  intros Hq Hm. exists (Return tt), [Vendor q], true.
  split; [intros o Ho; now rewrite (Hm o Ho) |].
  split; [repeat constructor |].
  split; [simpl; lia |].
  split; [simpl; constructor; [exact Hq | constructor] |].
  split; [split; [discriminate | reflexivity] |].
  intros H. now contradiction H.
Qed.

Lemma footprint_sends_and_logs (m : M (Obj N) unit) (self : Thermostat)
  (q : Request) (msg : string) :
  well_addressed self q ->
  (forall o, same_view self (this o) -> m o = sends_and_logs q msg o) ->
  footprint m self.
Proof.
  intros Hq Hm. exists (Return tt), [Vendor q; Log DEBUG msg], true.
  split; [intros o Ho; now rewrite (Hm o Ho) |].
  split; [repeat constructor |].
  split; [simpl; lia |].
  split; [simpl; constructor; [exact Hq | constructor] |].
  split; [split; [discriminate | reflexivity] |].
  intros H. now contradiction H.
Qed.

Lemma footprint_nothing (m : M (Obj N) unit) (self : Thermostat) :
  (forall o, same_view self (this o) -> m o = (Return tt, o)) ->
  footprint m self.
Proof.
  intros Hm. exists (Return tt), [], false.
  split; [intros o Ho; rewrite (Hm o Ho); now destruct o |].
  split; [constructor |].
  split; [simpl; lia |].
  split; [constructor |].
  split; [split; [discriminate | intros H; now contradiction H] |].
  reflexivity.
Qed.

Lemma footprint_log (m : M (Obj N) unit) (self : Thermostat) (msg : string) :
  (forall o, same_view self (this o) ->
     m o = (Return tt,
            {| this := this o; world := emit (Log ERROR msg) (world o) |})) ->
  footprint m self.
Proof.
  intros Hm. exists (Return tt), [Log ERROR msg], false.
  split; [intros o Ho; now rewrite (Hm o Ho) |].
  split; [repeat constructor |].
  split; [simpl; lia |].
  split; [constructor |].
  split; [split; [discriminate | intros H; now contradiction H] |].
  intros H. now contradiction H.
Qed.

Lemma footprint_raise (m : M (Obj N) unit) (self : Thermostat) (e : Exn) :
  (forall o, same_view self (this o) -> m o = (Raise e, o)) ->
  footprint m self.
Proof.
  intros Hm. exists (Raise e), [], false.
  split; [intros o Ho; rewrite (Hm o Ho); now destruct o |].
  split; [constructor |].
  split; [simpl; lia |].
  split; [constructor |].
  split; [split; [discriminate | intros H; now contradiction H] |].
  reflexivity.
Qed.

Lemma hold_request_addressed (self : Thermostat) :
  (forall climate,
     well_addressed self
       (set_climate_hold (thermostat_index self) climate
                         (hold_preference self))) /\
  (forall cool heat,
     well_addressed self
       (set_hold_temp (thermostat_index self) cool heat
                      (hold_preference self))).
Proof.
  split; intros; (split; [reflexivity |]); right; simpl;
    destruct (hold_preference_cases self) as [-> | ->]; auto.
Qed.

Lemma footprint_set_temp_hold (temp : Z) (self : Thermostat) :
  footprint (set_temp_hold temp) self.
Proof.
  destruct (current_operation self =? "heat") eqn:Eh.
  - apply string_eqb_true in Eh.
    apply (footprint_sends_and_logs _ self
             (set_hold_temp (thermostat_index self) (temp + 20) temp
                            (hold_preference self))
             "Setting ecobee hold_temp to: low=%s, is=%s, cool=%s, is=%s").
    + apply hold_request_addressed.
    + intros o [Hs Hi]. destruct (view_reads _ _ Hs) as (Ho & _ & Hp & _).
      rewrite set_temp_hold_heat by (now rewrite <- Ho).
      now rewrite Hi, Hp.
  - destruct (current_operation self =? "cool") eqn:Ec.
    + apply string_eqb_true in Ec.
      apply (footprint_sends_and_logs _ self
               (set_hold_temp (thermostat_index self) temp (temp - 20)
                              (hold_preference self))
               "Setting ecobee hold_temp to: low=%s, is=%s, cool=%s, is=%s").
      * apply hold_request_addressed.
      * intros o [Hs Hi]. destruct (view_reads _ _ Hs) as (Ho & _ & Hp & _).
        rewrite set_temp_hold_cool by (now rewrite <- Ho).
        now rewrite Hi, Hp.
    + apply string_eqb_false in Eh. apply string_eqb_false in Ec.
      apply (footprint_raise _ self (UnboundLocalError "cool_temp")).
      intros o [Hs Hi]. destruct (view_reads _ _ Hs) as (Ho & _).
      apply set_temp_hold_other; now rewrite <- Ho.
Qed.

Lemma footprint_set_auto_temp_hold (heat_temp cool_temp : Z)
  (self : Thermostat) :
  footprint (set_auto_temp_hold heat_temp cool_temp) self.
Proof.
  apply (footprint_sends_and_logs _ self
           (set_hold_temp (thermostat_index self) cool_temp heat_temp
                          (hold_preference self))
           "Setting ecobee hold_temp to: heat=%s, is=%s, cool=%s, is=%s").
  - apply hold_request_addressed.
  - intros o [Hs Hi]. destruct (view_reads _ _ Hs) as (_ & _ & Hp & _).
    rewrite set_auto_temp_hold_sends. now rewrite Hi, Hp.
Qed.

Lemma footprint_turn_on (climate : string) (m : M (Obj N) unit)
  (self : Thermostat) :
  (forall o, m o = sends (set_climate_hold (thermostat_index (this o)) climate
                                           (hold_preference (this o))) o) ->
  footprint m self.
Proof.
  intros Hm.
  apply (footprint_sends _ self
           (set_climate_hold (thermostat_index self) climate
                             (hold_preference self))).
  - apply hold_request_addressed.
  - intros o [Hs Hi]. destruct (view_reads _ _ Hs) as (_ & _ & Hp & _).
    rewrite Hm. now rewrite Hi, Hp.
Qed.

Lemma plain_request_addressed (self : Thermostat) :
  (forall mode, well_addressed self (set_hvac_mode (thermostat_index self) mode))
  /\
  (forall flag,
     well_addressed self (ecobee_resume_program (thermostat_index self) flag))
  /\
  (forall minutes,
     well_addressed self
       (ecobee_set_fan_min_on_time (thermostat_index self) minutes)).
Proof. repeat split; now left. Qed.

Lemma set_hold_mode_resumes (hold_mode : option string) (o : Obj N) :
  Py.eq_opt (current_hold_mode (this o)) hold_mode = false ->
  Py.eq_opt hold_mode (Some "away") = false ->
  Py.eq_opt hold_mode (Some "home") = false ->
  Py.eq_opt hold_mode (Some "temp") = false ->
  set_hold_mode hold_mode o =
  sends (ecobee_resume_program (thermostat_index (this o)) None) o.
Proof.
  intros E0 Ea Eh Et. unfold set_hold_mode, bind, gets. simpl.
  now rewrite E0, Ea, Eh, Et.
Qed.

Lemma set_hold_mode_branch (hold_mode : option string) (o : Obj N) :
  Py.eq_opt (current_hold_mode (this o)) hold_mode = false ->
  set_hold_mode hold_mode o =
  if Py.eq_opt hold_mode (Some "away") then turn_away_mode_on o
  else if Py.eq_opt hold_mode (Some "home") then turn_home_mode_on o
  else if Py.eq_opt hold_mode (Some "temp")
  then set_temp_hold (Py.int (current_temperature (this o))) o
  else sends (ecobee_resume_program (thermostat_index (this o)) None) o.
Proof.
  intros E0. unfold set_hold_mode, bind, gets. simpl. rewrite E0.
  destruct (Py.eq_opt hold_mode (Some "away")); [reflexivity |].
  destruct (Py.eq_opt hold_mode (Some "home")); [reflexivity |].
  destruct (Py.eq_opt hold_mode (Some "temp")); reflexivity.
Qed.

Lemma footprint_set_hold_mode (hold_mode : option string)
  (self : Thermostat) :
  footprint (set_hold_mode hold_mode) self.
Proof.
  destruct (Py.eq_opt (current_hold_mode self) hold_mode) eqn:E0.
  - apply footprint_nothing. intros o [Hs _].
    destruct (view_reads _ _ Hs) as (_ & Hh & _).
    apply eq_opt_true in E0. subst hold_mode. rewrite Hh.
    apply set_hold_mode_current.
  - assert (Hb : forall o : Obj N, same_view self (this o) ->
                   Py.eq_opt (current_hold_mode (this o)) hold_mode = false).
    { intros o [Hs _]. destruct (view_reads _ _ Hs) as (_ & <- & _).
      exact E0. }
    destruct (Py.eq_opt hold_mode (Some "away")) eqn:Ea.
    { apply (footprint_sends _ self
               (set_climate_hold (thermostat_index self) "away"
                                 (hold_preference self))).
      - apply hold_request_addressed.
      - intros o Ho. rewrite (set_hold_mode_branch _ _ (Hb o Ho)), Ea.
        destruct Ho as [Hs Hi].
        destruct (view_reads _ _ Hs) as (_ & _ & Hp & _).
        rewrite turn_away_mode_on_sends. now rewrite Hi, Hp. }
    destruct (Py.eq_opt hold_mode (Some "home")) eqn:Eh.
    { apply (footprint_sends _ self
               (set_climate_hold (thermostat_index self) "home"
                                 (hold_preference self))).
      - apply hold_request_addressed.
      - intros o Ho. rewrite (set_hold_mode_branch _ _ (Hb o Ho)), Ea, Eh.
        destruct Ho as [Hs Hi].
        destruct (view_reads _ _ Hs) as (_ & _ & Hp & _).
        rewrite turn_home_mode_on_sends. now rewrite Hi, Hp. }
    destruct (Py.eq_opt hold_mode (Some "temp")) eqn:Et.
    { destruct (footprint_set_temp_hold (Py.int (current_temperature self))
                  self) as (out & evs & f & Hm & Hrest).
      exists out, evs, f. split; [| exact Hrest].
      intros o Ho. rewrite (set_hold_mode_branch _ _ (Hb o Ho)), Ea, Eh, Et.
      destruct (view_reads _ _ (proj1 Ho)) as (_ & _ & _ & <-).
      now apply Hm. }
    apply (footprint_sends _ self
             (ecobee_resume_program (thermostat_index self) None)).
    + apply plain_request_addressed.
    + intros o Ho. rewrite (set_hold_mode_branch _ _ (Hb o Ho)), Ea, Eh, Et.
      now rewrite (proj2 Ho).
Qed.

Lemma footprint_set_temperature (kwargs : Kwargs) (self : Thermostat) :
  footprint (set_temperature kwargs) self.
Proof.
  destruct (current_operation self =? "auto") eqn:Eo;
    [destruct (target_temp_low kwargs) as [low |] eqn:El;
     [destruct (target_temp_high kwargs) as [high |] eqn:Eh |] |].
  - apply string_eqb_true in Eo.
    destruct (footprint_set_auto_temp_hold (Py.int low) (Py.int high) self)
      as (out & evs & f & Hm & Hrest).
    exists out, evs, f. split; [| exact Hrest].
    intros o Ho. destruct (view_reads _ _ (proj1 Ho)) as (Hop & _).
    rewrite (set_temperature_auto kwargs low high o) by
      (try assumption; now rewrite <- Hop).
    now apply Hm.
  - assert (Hn : forall o : Obj N, same_view self (this o) ->
                   ~ (current_operation (this o) = "auto" /\
                      target_temp_low kwargs <> None /\
                      target_temp_high kwargs <> None)).
    { intros o _ (_ & _ & D). now apply D. }
    destruct (temperature kwargs) as [temp |] eqn:Et.
    + destruct (footprint_set_temp_hold (Py.int temp) self)
        as (out & evs & f & Hm & Hrest).
      exists out, evs, f. split; [| exact Hrest].
      intros o Ho. rewrite (set_temperature_fallback kwargs o (Hn o Ho)), Et.
      now apply Hm.
    + apply (footprint_log _ self
               "Missing valid arguments for set_temperature in %s").
      intros o Ho. now rewrite (set_temperature_fallback kwargs o (Hn o Ho)), Et.
  - assert (Hn : forall o : Obj N, same_view self (this o) ->
                   ~ (current_operation (this o) = "auto" /\
                      target_temp_low kwargs <> None /\
                      target_temp_high kwargs <> None)).
    { intros o _ (_ & D & _). now apply D. }
    destruct (temperature kwargs) as [temp |] eqn:Et.
    + destruct (footprint_set_temp_hold (Py.int temp) self)
        as (out & evs & f & Hm & Hrest).
      exists out, evs, f. split; [| exact Hrest].
      intros o Ho. rewrite (set_temperature_fallback kwargs o (Hn o Ho)), Et.
      now apply Hm.
    + apply (footprint_log _ self
               "Missing valid arguments for set_temperature in %s").
      intros o Ho. now rewrite (set_temperature_fallback kwargs o (Hn o Ho)), Et.
  - assert (Hn : forall o : Obj N, same_view self (this o) ->
                   ~ (current_operation (this o) = "auto" /\
                      target_temp_low kwargs <> None /\
                      target_temp_high kwargs <> None)).
    { intros o [Hs _] (D & _). destruct (view_reads _ _ Hs) as (Hop & _).
      apply string_eqb_false in Eo. apply Eo. now rewrite Hop. }
    destruct (temperature kwargs) as [temp |] eqn:Et.
    + destruct (footprint_set_temp_hold (Py.int temp) self)
        as (out & evs & f & Hm & Hrest).
      exists out, evs, f. split; [| exact Hrest].
      intros o Ho. rewrite (set_temperature_fallback kwargs o (Hn o Ho)), Et.
      now apply Hm.
    + apply (footprint_log _ self
               "Missing valid arguments for set_temperature in %s").
      intros o Ho. now rewrite (set_temperature_fallback kwargs o (Hn o Ho)), Et.
Qed.

Lemma run_footprint (c : Command) (self : Thermostat) :
  footprint (run c) self.
Proof.
  destruct c as [hm | ht ct | t | kw | om | fm | ra | |]; simpl.
  - apply footprint_set_hold_mode.
  - apply footprint_set_auto_temp_hold.
  - apply footprint_set_temp_hold.
  - apply footprint_set_temperature.
  - apply (footprint_sends _ self
             (set_hvac_mode (thermostat_index self) om)).
    + apply plain_request_addressed.
    + intros o [_ Hi]. rewrite set_operation_mode_sends. now rewrite Hi.
  - apply (footprint_sends _ self
             (ecobee_set_fan_min_on_time (thermostat_index self) fm)).
    + apply plain_request_addressed.
    + intros o [_ Hi]. rewrite set_fan_min_on_time_sends. now rewrite Hi.
  - apply (footprint_sends _ self
             (ecobee_resume_program (thermostat_index self)
                (Some (if ra then "true" else "false")))).
    + apply plain_request_addressed.
    + intros o [_ Hi]. rewrite resume_program_sends. now rewrite Hi.
  - apply (footprint_turn_on "away"). apply turn_away_mode_on_sends.
  - apply (footprint_turn_on "home"). apply turn_home_mode_on_sends.
Qed.

Lemma same_view_refl (self : Thermostat) : same_view self self.
Proof. split; reflexivity. Qed.

Lemma same_view_flag (b : bool) (self : Thermostat) :
  same_view self (if b then set_update_without_throttle true self else self).
Proof. destruct b; split; reflexivity. Qed.

(** X10: a command, whether it returns or raises, leaves the snapshot,
    the index, the name, the hold setting, the operation list and the
    entity id of the entity alone, never lowers a raised
    [update_without_throttle], and adds only requests and log lines to
    the trace: it neither refreshes the service nor fetches a
    snapshot. *)
Theorem commands_keep_the_entity (c : Command) (o : Obj N) :
  same_but_flag (this o) (this (snd (run c o))) /\
  (update_without_throttle (this o) = true ->
   update_without_throttle (this (snd (run c o))) = true) /\
  exists evs : list Effect,
    trace (world (snd (run c o))) = trace (world o) ++ evs /\
    Forall command_effect evs.
Proof.
  destruct (run_footprint c (this o)) as (out & evs & f & Hm & Hk & _).
  rewrite (Hm o (same_view_refl _)). cbn [snd this world].
  split; [| split].
  - destruct f; repeat split.
  - intros H. destruct f; [reflexivity | exact H].
  - exists evs. split; [apply trace_perform_all | exact Hk].
Qed.

(** X11: a command sends at most one request, to the thermostat of its
    own index and, where the request sets a hold, with the preference
    [nextTransition] or [indefinite]; where it sends one it returns and
    [update_without_throttle] is raised, and where it sends none the
    entity is as it was. *)
Theorem commands_send_at_most_one_request (c : Command) (o : Obj N) :
  exists qs : list Request,
    vendor_calls (trace (world (snd (run c o)))) =
      vendor_calls (trace (world o)) ++ qs /\
    (length qs <= 1)%nat /\
    Forall (well_addressed (this o)) qs /\
    (qs <> [] ->
     fst (run c o) = Return tt /\
     update_without_throttle (this (snd (run c o))) = true) /\
    (qs = [] -> this (snd (run c o)) = this o).
Proof.
  destruct (run_footprint c (this o))
    as (out & evs & f & Hm & _ & Hl & Ha & Hf & Hr).
  rewrite (Hm o (same_view_refl _)). cbn [fst snd this world].
  exists (vendor_calls evs).
  split; [now rewrite trace_perform_all, vendor_calls_app |].
  split; [exact Hl |]. split; [exact Ha |]. split.
  - intros Hq. split.
    + destruct out as [[] | e]; [reflexivity |].
      rewrite Hr in Hq by discriminate. now contradiction Hq.
    + apply Hf in Hq. now subst f.
  - intros Hq. destruct f; [| reflexivity].
    destruct (proj1 Hf eq_refl Hq).
Qed.

(** X12: a command repeated before the next [update] is answered as the
    first time: the outcome is the same and the same effects are added
    to the trace once more, since a command reads the snapshot and
    only [update] replaces it. *)
Theorem repeated_command_repeats (c : Command) (o : Obj N) :
  fst (run c (snd (run c o))) = fst (run c o) /\
  exists evs : list Effect,
    trace (world (snd (run c o))) = trace (world o) ++ evs /\
    trace (world (snd (run c (snd (run c o))))) =
      trace (world (snd (run c o))) ++ evs.
Proof.
  destruct (run_footprint c (this o)) as (out & evs & f & Hm & _).
  rewrite (Hm o (same_view_refl _)). cbn [fst snd].
  set (o1 := {| this := if f then set_update_without_throttle true (this o)
                        else this o;
                world := perform_all evs (world o) |}).
  rewrite (Hm o1 (same_view_flag f (this o))). cbn [fst snd world].
  split; [reflexivity |].
  exists evs. split; apply trace_perform_all.
Qed.

End CommandFootprints.

(** ** Hold modes *)

Section HoldModes.

Context {N : Type} {service : EcobeeService N}.

Lemma eq_opt_false (a b : option string) : Py.eq_opt a b = false <-> a <> b.
Proof.
  split.
  - intros H E. apply eq_opt_true in E. congruence.
  - intros H. destruct (Py.eq_opt a b) eqn:E; [| reflexivity].
    apply eq_opt_true in E. now contradiction H.
Qed.

(** X13: [set_hold_mode] with a hold mode other than the current one
    asks for the [away] or the [home] climate hold, or, for [temp],
    holds the current temperature cut to whole degrees as
    [set_temp_hold] does; any other value, [None] included, resumes
    the program without a resume-all argument. *)
Theorem set_hold_mode_dispatch (o : Obj N) (hold_mode : option string) :
  hold_mode <> current_hold_mode (this o) ->
  (hold_mode = Some "away" ->
   set_hold_mode hold_mode o =
   sends (set_climate_hold (thermostat_index (this o)) "away"
                           (hold_preference (this o))) o) /\
  (hold_mode = Some "home" ->
   set_hold_mode hold_mode o =
   sends (set_climate_hold (thermostat_index (this o)) "home"
                           (hold_preference (this o))) o) /\
  (hold_mode = Some "temp" ->
   set_hold_mode hold_mode o =
   set_temp_hold
     (Z.quot (actualTemperature (runtime (thermostat (this o)))) 10) o) /\
  (hold_mode <> Some "away" -> hold_mode <> Some "home" ->
   hold_mode <> Some "temp" ->
   set_hold_mode hold_mode o =
   sends (ecobee_resume_program (thermostat_index (this o)) None) o).
Proof.
  intros Hne.
  assert (E0 : Py.eq_opt (current_hold_mode (this o)) hold_mode = false).
  { apply eq_opt_false. congruence. }
  rewrite (set_hold_mode_branch hold_mode o E0).
  repeat split.
  - intros ->. reflexivity.
  - intros ->. reflexivity.
  - intros ->. simpl. unfold current_temperature.
    now rewrite int_truediv_10.
  - intros Ha Hh Ht.
    apply eq_opt_false in Ha. apply eq_opt_false in Hh.
    apply eq_opt_false in Ht. now rewrite Ha, Hh, Ht.
Qed.

(** X14: [turn_away_mode_off] does nothing when no hold is active, and
    otherwise resumes the program, whichever hold is active: [away],
    [home] or a temperature hold. *)
Theorem turn_away_mode_off_resumes (o : Obj N) :
  (current_hold_mode (this o) = None ->
   turn_away_mode_off o = (Return tt, o)) /\
  (current_hold_mode (this o) <> None ->
   turn_away_mode_off o =
   sends (ecobee_resume_program (thermostat_index (this o)) None) o).
Proof.
  unfold turn_away_mode_off. split.
  - intros H. rewrite <- H at 1. apply set_hold_mode_current.
  - intros H. apply set_hold_mode_resumes; try reflexivity.
    now apply eq_opt_false.
Qed.

(** ** Refresh *)

Lemma update_unfolded (o : Obj N) :
  update o =
  let w1 := call_data_update (update_without_throttle (this o)) (world o) in
  let w2 := emit (GetThermostat (thermostat_index (this o))) w1 in
  let self := set_update_without_throttle false (this o) in
  match nth_error (thermostats (network w1)) (thermostat_index (this o)) with
  | Some s => (Return tt, {| this := set_thermostat s self; world := w2 |})
  | None => (Raise IndexError, {| this := self; world := w2 |})
  end.
Proof.
  destruct o as [[index snap nm hold ops flag eid] w].
  unfold update, bind, gets, on_world, on_self, modify, in_world,
    get_thermostat.
  destruct flag; cbn;
    destruct (nth_error _ index); reflexivity.
Qed.


(** X16: after an [update] that returns, the [name] shown is the name
    in the fetched snapshot, while [_name] is still the one stored at
    construction. *)
Theorem name_follows_snapshot (o : Obj N) (s : Snapshot) :
  nth_error (thermostats (network (world (snd (update o)))))
            (thermostat_index (this o)) = Some s ->
  fst (update o) = Return tt /\
  name (this (snd (update o))) = snap_name s /\
  _name (this (snd (update o))) = _name (this o).
Proof.
  assert (Hn : network (world (snd (update o))) =
               data_update (update_without_throttle (this o))
                           (network (world o))).
  { rewrite update_unfolded. cbv zeta. now destruct (nth_error _ _). }
  intros H. rewrite Hn in H.
  rewrite update_unfolded. cbv zeta. cbn [network call_data_update emit].
  rewrite H. repeat split.
Qed.

End HoldModes.

(** ** Services *)

Section ServiceTargets.

Context {N : Type} {service : EcobeeService N}.

Lemma filter_none {A : Type} (f : A -> bool) (l : list A) :
  (forall x, In x l -> f x = false) -> filter f l = [].
Proof.
  induction l as [| x l IH]; intros H; simpl.
  - reflexivity.
  - rewrite (H x) by now left. apply IH. intros y Hy. apply H. now right.
Qed.

Lemma no_match_no_target (ids : list string) (devs : list Thermostat) :
  ids <> [] ->
  (forall d, In d devs -> Py.contains (entity_id d) ids = false) ->
  target_thermostats (Some ids) devs = [].
Proof.
  intros Hi Hd. rewrite target_thermostats_some by exact Hi.
  apply filter_none. intros k _. unfold selected.
  destruct (nth_error devs k) as [d |] eqn:E; [| reflexivity].
  apply Hd. eapply nth_error_In. exact E.
Qed.

(** X17: a service call whose entity ids name none of the entities
    does nothing: no request is sent, no update is scheduled and no
    entity changes. *)
Theorem service_without_match_does_nothing (h : Hass N) (ids : list string)
  (minutes : Z) (resume_all : bool) :
  ids <> [] ->
  (forall d, In d (devices h) -> Py.contains (entity_id d) ids = false) ->
  fan_min_on_time_set_service
    {| fan_entity_id := Some ids; fan_minutes := minutes |} h
    = (Return tt, h) /\
  resume_program_set_service
    {| resume_entity_id := Some ids; resume_all_flag := resume_all |} h
    = (Return tt, h).
Proof.
  intros Hi Hd. pose proof (no_match_no_target ids (devices h) Hi Hd) as E.
  unfold fan_min_on_time_set_service, resume_program_set_service,
    bind, gets.
  cbn [fan_entity_id fan_minutes resume_entity_id resume_all_flag].
  rewrite E. split; reflexivity.
Qed.

End ServiceTargets.

(** ** Instances of the further properties *)

Lemma commands_keep_the_entity_witness :
  update_without_throttle
    (this (snd (run (SetHoldMode (Some "home")) sample_flagged))) = true /\
  update_without_throttle
    (this (snd (run (SetTemperature no_arguments) sample_flagged))) = true.
Proof.
  split.
  - exact (proj1 (proj2 (commands_keep_the_entity
                           (SetHoldMode (Some "home")) sample_flagged))
             eq_refl).
  - exact (proj1 (proj2 (commands_keep_the_entity
                           (SetTemperature no_arguments) sample_flagged))
             eq_refl).
Defined.

Lemma commands_send_at_most_one_request_witness :
  update_without_throttle
    (this (snd (run (SetOperationMode "cool") (sample_obj "heat")))) = true /\
  this (snd (run (SetHoldMode None) (sample_obj "heat"))) =
    this (sample_obj "heat").
Proof.
  split.
  - destruct (commands_send_at_most_one_request
                (SetOperationMode "cool") (sample_obj "heat"))
      as (qs & E & _ & _ & H & _).
    apply H. intros ->. discriminate E.
  - destruct (commands_send_at_most_one_request
                (SetHoldMode None) (sample_obj "heat"))
      as (qs & E & _ & _ & _ & H).
    apply H. destruct qs; [reflexivity | discriminate E].
Defined.

Lemma set_hold_mode_dispatch_witness :
  vendor_calls (trace (world (snd (set_hold_mode (Some "temp")
                                     (sample_obj "heat"))))) =
    [set_hold_temp 0 92 72 "nextTransition"] /\
  vendor_calls (trace (world (snd (set_hold_mode (Some "away")
                                     (sample_obj "heat"))))) =
    [set_climate_hold 0 "away" "nextTransition"] /\
  vendor_calls (trace (world (snd (set_hold_mode (Some "sleep")
                                     (sample_obj "heat"))))) =
    [ecobee_resume_program 0 None].
Proof.
  pose proof (set_hold_mode_dispatch (sample_obj "heat") (Some "temp")
                ltac:(discriminate)) as (_ & _ & Ht & _).
  pose proof (set_hold_mode_dispatch (sample_obj "heat") (Some "away")
                ltac:(discriminate)) as (Ha & _).
  pose proof (set_hold_mode_dispatch (sample_obj "heat") (Some "sleep")
                ltac:(discriminate)) as (_ & _ & _ & Hs).
  refine (conj _ (conj _ _)).
  - rewrite (Ht eq_refl). reflexivity.
  - rewrite (Ha eq_refl). reflexivity.
  - rewrite Hs by discriminate. reflexivity.
Defined.

Lemma turn_away_mode_off_resumes_witness :
  turn_away_mode_off (sample_obj "heat") = (Return tt, sample_obj "heat") /\
  vendor_calls (trace (world (snd (turn_away_mode_off sample_flagged)))) =
    [ecobee_resume_program 0 None].
Proof.
  split.
  - apply (proj1 (turn_away_mode_off_resumes (sample_obj "heat"))).
    reflexivity.
  - rewrite (proj2 (turn_away_mode_off_resumes sample_flagged))
      by discriminate.
    reflexivity.
Defined.


Lemma name_follows_snapshot_witness :
  name (this (snd (update sample_flagged))) = "Hall".
Proof.
  exact (proj1 (proj2 (name_follows_snapshot sample_flagged
                         (sample_snapshot "heat" "askMe" []) eq_refl))).
Defined.

Lemma service_without_match_does_nothing_witness :
  fan_min_on_time_set_service
    {| fan_entity_id := Some ["climate.cellar"]; fan_minutes := 15 |}
    sample_pair
  = (Return tt, sample_pair).
Proof.
  apply (proj1 (service_without_match_does_nothing
                  sample_pair ["climate.cellar"] 15 false
                  ltac:(discriminate)
                  ltac:(simpl; intros d [<- | [<- | []]]; reflexivity))).
Defined.

(** ** No hold, no thermostats *)

Lemma existsb_none {A : Type} (f : A -> bool) (l : list A) :
  existsb f l = false <-> forall x, In x l -> f x = false.
Proof.
  split.
  - intros H x Hx. destruct (f x) eqn:E; [| reflexivity].
    rewrite <- H. symmetry. apply existsb_exists. now exists x.
  - intros H. destruct (existsb f l) eqn:E; [| reflexivity].
    apply existsb_exists in E. destruct E as (x & Hx & Hf).
    now rewrite (H x Hx) in Hf.
Qed.

(** X18: the current hold mode is absent exactly when no event refers
    to the [away] or the [home] climate, none is of type [autoAway] or
    [autoHome], and none is a running [hold]; a vacation, running or
    not, is no hold mode of its own. *)
Theorem no_hold_characterised (self : Thermostat) :
  current_hold_mode self = None <->
  forall e : Event,
    In e (events (thermostat self)) ->
    holdClimateRef e <> "away" /\ type e <> "autoAway" /\
    holdClimateRef e <> "home" /\ type e <> "autoHome" /\
    ~ (type e = "hold" /\ running e = true).
Proof.
  unfold current_hold_mode. split.
  - intros H.
    destruct (is_away_mode_on self) eqn:Ea; [discriminate H |].
    destruct (is_home_mode_on self) eqn:Eh; [discriminate H |].
    destruct (is_temp_hold_on self) eqn:Et; [discriminate H |].
    intros e He.
    pose proof (proj1 (existsb_none _ _) Ea e He) as Ha.
    pose proof (proj1 (existsb_none _ _) Eh e He) as Hh.
    pose proof (proj1 (existsb_none _ _) Et e He) as Ht.
    cbv beta in Ha, Hh, Ht.
    apply orb_false_elim in Ha. destruct Ha as [Ha1 Ha2].
    apply orb_false_elim in Hh. destruct Hh as [Hh1 Hh2].
    apply string_eqb_false in Ha1. apply string_eqb_false in Ha2.
    apply string_eqb_false in Hh1. apply string_eqb_false in Hh2.
    repeat split; try assumption.
    intros [T R]. rewrite T, R in Ht. discriminate Ht.
  - intros H.
    assert (Ea : is_away_mode_on self = false).
    { apply existsb_none. intros e He.
      destruct (H e He) as (A1 & A2 & _).
      apply string_eqb_false in A1. apply string_eqb_false in A2.
      now rewrite A1, A2. }
    assert (Eh : is_home_mode_on self = false).
    { apply existsb_none. intros e He.
      destruct (H e He) as (_ & _ & A1 & A2 & _).
      apply string_eqb_false in A1. apply string_eqb_false in A2.
      now rewrite A1, A2. }
    assert (Et : is_temp_hold_on self = false).
    { apply existsb_none. intros e He.
      destruct (H e He) as (_ & _ & _ & _ & A).
      destruct (type e =? "hold") eqn:T; [| reflexivity].
      destruct (running e) eqn:R; [| reflexivity].
      exfalso. apply A. apply string_eqb_true in T. now split. }
    now rewrite Ea, Eh, Et.
Qed.

Lemma no_hold_characterised_witness :
  current_hold_mode
    (sample_thermostat "heat" "askMe"
       [ {| type := "vacation"; running := true;
            holdClimateRef := "vacation" |} ]) = None.
Proof.
  apply (proj2 (no_hold_characterised
                  (sample_thermostat "heat" "askMe"
                     [ {| type := "vacation"; running := true;
                          holdClimateRef := "vacation" |} ]))).
  simpl. intros e [<- | []]. simpl.
  repeat split; try discriminate. intros [T _]. discriminate T.
Defined.

Section EmptyService.

Context {N : Type} {service : EcobeeService N}.

Variable assign_entity_id : nat -> Thermostat -> option string.

(** X19: with discovery context and a service that lists no
    thermostat, [setup_platform] builds no entity and still registers
    both services; a call of either service then sends nothing and
    changes nothing, whatever entity ids it names. *)
Theorem setup_without_thermostats (h : Hass N) (info : DiscoveryInfo)
  (fan_data : SetFanMinOnTimeData) (resume_data : ResumeProgramData) :
  thermostats (network (hass_world h)) = [] ->
  let h' := snd (setup_platform assign_entity_id (Some info) h) in
  fst (setup_platform assign_entity_id (Some info) h) = Return tt /\
  devices h' = [] /\
  trace (hass_world h') =
    trace (hass_world h) ++
    [Log INFO "Loading ecobee thermostat component with hold_temp set to %s";
     AddDevices [];
     RegisterService SERVICE_SET_FAN_MIN_ON_TIME;
     RegisterService SERVICE_RESUME_PROGRAM] /\
  fan_min_on_time_set_service fan_data h' = (Return tt, h') /\
  resume_program_set_service resume_data h' = (Return tt, h').
Proof.
  intros H. cbv zeta.
  assert (E : setup_platform assign_entity_id (Some info) h =
              (Return tt,
               {| hass_world :=
                    {| network := network (hass_world h);
                       trace := trace (hass_world h) ++
                         [Log INFO
                            "Loading ecobee thermostat component with hold_temp set to %s";
                          AddDevices [];
                          RegisterService SERVICE_SET_FAN_MIN_ON_TIME;
                          RegisterService SERVICE_RESUME_PROGRAM] |};
                  devices := [] |})).
  { unfold setup_platform, bind, gets, in_hass_world, add_devices, register,
      modify, emit.
    cbn [hass_world devices network trace]. rewrite H. cbn.
    now rewrite <- !app_assoc. }
  rewrite E. cbn [fst snd devices hass_world trace].
  repeat split.
  - unfold fan_min_on_time_set_service, bind, gets, target_thermostats.
    cbn [devices]. now destruct (fan_entity_id fan_data) as [[| i l] |].
  - unfold resume_program_set_service, bind, gets, target_thermostats.
    cbn [devices]. now destruct (resume_entity_id resume_data) as [[| i l] |].
Qed.

End EmptyService.

Lemma setup_without_thermostats_witness :
  devices (snd (setup_platform sample_entity_id
                  (Some {| discovery_hold_temp := false |})
                  (sample_hass []))) = [].
Proof.
  exact (proj1 (proj2 (setup_without_thermostats sample_entity_id
                         (sample_hass [])
                         {| discovery_hold_temp := false |}
                         {| fan_entity_id := None; fan_minutes := 5 |}
                         {| resume_entity_id := None;
                            resume_all_flag := false |}
                         eq_refl))).
Defined.
